(** * carbon-tracker: the application icon generator

    A verification development for [scripts/create_app_icon.py], the one
    program of the repository.  The script allocates a 512x512 RGBA image,
    stacks 50 rounded rectangles whose colours run from one green to
    another, draws a white leaf (polygon, vein, three dots) on top, saves
    the image as a PNG and prints two lines.

    The embedding is shallow.  Python numbers are modelled as they are:
    [int] as [Z], [float] as IEEE 754 binary64 through the Standard
    Library's [spec_float], so that [int()] truncation and the rounding of
    every multiplication and addition are those of the interpreter.  The
    [ImageDraw] object is explicit state: the pixel store of the image it
    draws on, together with the log of the calls made so far.  Pillow's
    rasterisation and PNG encoder are not part of the repository; they are
    section variables.  The module top level passes a small model of the
    file system and the console from statement to statement; whatever can
    raise returns an [option]. *)

From Stdlib Require Import ZArith QArith Qabs Lia List String.
From Stdlib Require Import Floats.SpecFloat.
From stdpp Require Import base option list gmap strings.

Local Open Scope Z_scope.

(** ** Python numbers *)

Module Py.

(** binary64: 53 bits of precision, exponents below 1024. *)
Definition prec : Z := 53.
Definition emax : Z := 1024.

Definition float : Type := spec_float.

(** A Python number as this script uses them: an [int] or a [float]. *)
Inductive num : Type :=
| Int (z : Z)
| Float (f : float).

(** [float(n)] for an int [n]: correctly rounded (exact below 2^53). *)
Definition float_of_int (z : Z) : float := binary_normalize prec emax z 0 false.

(** The implicit conversion of a mixed-mode operation. *)
Definition to_float (a : num) : float :=
  match a with
  | Int z => float_of_int z
  | Float f => f
  end.

(** A decimal literal [n/d] (0.2 is [float_lit 2 10]): the double
    nearest to the rational, which is what the correctly rounded
    division of two exactly representable integers gives. *)
Definition float_lit (n d : Z) : float :=
  SFdiv prec emax (float_of_int n) (float_of_int d).

(** [a * b], [a + b], [a - b]: exact on two ints, binary64 otherwise. *)
Definition mul (a b : num) : num :=
  match a, b with
  | Int x, Int y => Int (x * y)
  | _, _ => Float (SFmul prec emax (to_float a) (to_float b))
  end.

Definition add (a b : num) : num :=
  match a, b with
  | Int x, Int y => Int (x + y)
  | _, _ => Float (SFadd prec emax (to_float a) (to_float b))
  end.

Definition sub (a b : num) : num :=
  match a, b with
  | Int x, Int y => Int (x - y)
  | _, _ => Float (SFsub prec emax (to_float a) (to_float b))
  end.

Definition is_zero (a : num) : bool :=
  match a with
  | Int z => z =? 0
  | Float (S754_zero _) => true
  | Float _ => false
  end.

(** [a / b]: true division, always a float; ZeroDivisionError is [None]. *)
Definition truediv (a b : num) : option num :=
  if is_zero b then None
  else Some (Float (SFdiv prec emax (to_float a) (to_float b))).

(** [a // b] on ints (floor division); ZeroDivisionError is [None]. *)
Definition floordiv (a b : Z) : option Z :=
  if b =? 0 then None else Some (a / b).

(** The integer part of a finite float, rounded toward zero. *)
Definition trunc (f : float) : option Z :=
  match f with
  | S754_zero _ => Some 0
  | S754_finite s m e =>
      let a := match e with
               | Z0 => Zpos m
               | Zpos p => Zpos m * 2 ^ Zpos p
               | Zneg p => Zpos m / 2 ^ Zpos p
               end in
      Some (if s then - a else a)
  | S754_infinity _ | S754_nan => None
  end.

(** [int(a)]: the identity on an int, truncation toward zero on a float;
    OverflowError (infinity) and ValueError (NaN) are [None]. *)
Definition int (a : num) : option Z :=
  match a with
  | Int z => Some z
  | Float f => trunc f
  end.

(** [a <= b] and [a < b] (exact comparisons; false on NaN). *)
Definition leb (a b : num) : bool :=
  match a, b with
  | Int x, Int y => x <=? y
  | _, _ => SFleb (to_float a) (to_float b)
  end.

Definition ltb (a b : num) : bool :=
  match a, b with
  | Int x, Int y => x <? y
  | _, _ => SFltb (to_float a) (to_float b)
  end.

(** [range(n)] *)
Definition range (n : Z) : list Z := Z.of_nat <$> seq 0 (Z.to_nat n).

(** A [for] loop whose body may raise: the state is threaded through
    the iterations in order and the first exception ends the loop. *)
Fixpoint for_each {A S : Type} (body : A -> S -> option S)
         (l : list A) (s : S) : option S :=
  match l with
  | [] => Some s
  | x :: l' =>
      match body x s with
      | Some s' => for_each body l' s'
      | None => None
      end
  end.

End Py.

(** ** The part of Pillow the script uses *)

Module PIL.
Import Py.

(** An RGBA pixel or ink, 8 bits per channel. *)
Record Color : Type := RGBA { red : Z; green : Z; blue : Z; alpha : Z }.

Definition Point : Type := (num * num)%type.
Definition Box : Type := (num * num * num * num)%type.

(** One call on an [ImageDraw] object, with its arguments. *)
Inductive DrawCall : Type :=
| RoundedRectangle (xy : Box) (radius : num) (fill : Color)
| Polygon (xy : list Point) (fill : Color)
| Line (xy : list Point) (fill : Color) (width : Z)
| Ellipse (xy : Box) (fill : Color).

Definition ink (c : DrawCall) : Color :=
  match c with
  | RoundedRectangle _ _ fill => fill
  | Polygon _ fill => fill
  | Line _ fill _ => fill
  | Ellipse _ fill => fill
  end.

(** Every number a call passes as a coordinate, in argument order. *)
Definition coordinates (c : DrawCall) : list num :=
  match c with
  | RoundedRectangle (x0, y0, x1, y1) _ _ => [x0; y0; x1; y1]
  | Polygon xy _ => flat_map (fun p : Point => [fst p; snd p]) xy
  | Line xy _ _ => flat_map (fun p : Point => [fst p; snd p]) xy
  | Ellipse (x0, y0, x1, y1) _ => [x0; y0; x1; y1]
  end.

Definition is_rounded_rectangle (c : DrawCall) : bool :=
  match c with
  | RoundedRectangle _ _ _ => true
  | _ => false
  end.

(** An image: its size, its pixel store, and (ghost state) the drawing
    calls applied to it so far, oldest first.  [ImageDraw.Draw(img)]
    returns a handle on [img] itself, so drawing is state passing on the
    image. *)
Record Image : Type := mkImage {
  width : Z;
  height : Z;
  pixels : Z -> Z -> Color;
  history : list DrawCall
}.

(** [Image.new('RGBA', size, color)] *)
Definition new (size : Z * Z) (color : Color) : Image :=
  {| width := fst size; height := snd size;
     pixels := fun _ _ => color; history := [] |}.

(** The column or row an index names on an axis of [n] pixels: a negative
    index counts from the far edge, as in Pillow's [getpixel]. *)
Definition index (n i : Z) : Z := if i <? 0 then n + i else i.

(** [img.getpixel((x, y))]: negative coordinates index from the far edge;
    IndexError outside the image is [None]. *)
Definition getpixel (img : Image) (x y : Z) : option Color :=
  let x := index (width img) x in
  let y := index (height img) y in
  if (0 <=? x) && (x <? width img) && (0 <=? y) && (y <? height img)
  then Some (pixels img x y) else None.

Section Draw.

(** Pillow's rasteriser: whether a call sets the pixel (x, y).  On an
    RGBA image drawn in RGBA mode the ink replaces the pixel, alpha
    included; nothing is blended. *)
Variable covers : DrawCall -> Z -> Z -> bool.

Definition draw_call (c : DrawCall) (img : Image) : Image :=
  {| width := width img; height := height img;
     pixels := fun x y => if covers c x y then ink c else pixels img x y;
     history := history img ++ [c] |}.

Definition rounded_rectangle (xy : Box) (radius : num) (fill : Color) :=
  draw_call (RoundedRectangle xy radius fill).
Definition polygon (xy : list Point) (fill : Color) :=
  draw_call (Polygon xy fill).
Definition line (xy : list Point) (fill : Color) (width : Z) :=
  draw_call (Line xy fill width).
Definition ellipse (xy : Box) (fill : Color) :=
  draw_call (Ellipse xy fill).

End Draw.

(** *** What is assumed of the rasteriser

    Pillow's C rasteriser is outside the repository.  The one property
    of it used below is an outer bound on the pixels a call may set:
    nothing outside the bounding box of the call's coordinates (widened
    by the stroke width for a line), and, for a rounded rectangle with
    integer bounds whose radius fits, nothing in a corner square farther
    than [radius + 1] from the centre of the corner arc (one pixel of
    slack for the arc's midpoint algorithm). *)

Definition float_floor (f : float) : option Z :=
  match f with
  | S754_zero _ => Some 0
  | S754_finite s m e =>
      let sm := if s then Zneg m else Zpos m in
      Some match e with
           | Z0 => sm
           | Zpos p => sm * 2 ^ Zpos p
           | Zneg p => sm / 2 ^ Zpos p
           end
  | S754_infinity _ | S754_nan => None
  end.

Definition floor (a : num) : option Z :=
  match a with
  | Int z => Some z
  | Float f => float_floor f
  end.

Definition ceil (a : num) : option Z :=
  match a with
  | Int z => Some z
  | Float f => z ← float_floor (SFopp f); Some (- z)
  end.

(** The integer interval around a non-empty list of finite numbers. *)
Definition bounds (ns : list num) : option (Z * Z) :=
  lo ← mapM floor ns;
  hi ← mapM ceil ns;
  match lo, hi with
  | l :: ls, h :: hs => Some (fold_right Z.min l ls, fold_right Z.max h hs)
  | _, _ => None
  end.

Definition widen (w : Z) (b : Z * Z) : Z * Z := (fst b - w, snd b + w).

(** The bounding box of a call, [((xmin, xmax), (ymin, ymax))]. *)
Definition bbox (c : DrawCall) : option ((Z * Z) * (Z * Z)) :=
  match c with
  | RoundedRectangle (x0, y0, x1, y1) _ _
  | Ellipse (x0, y0, x1, y1) _ =>
      xs ← bounds [x0; x1]; ys ← bounds [y0; y1]; Some (xs, ys)
  | Polygon xy _ =>
      xs ← bounds (map fst xy); ys ← bounds (map snd xy); Some (xs, ys)
  | Line xy _ w =>
      xs ← bounds (map fst xy); ys ← bounds (map snd xy);
      Some (widen w xs, widen w ys)
  end.

(** The centre coordinate of the corner arc that governs [x], if [x] is
    in the corner band at either end of [[lo, hi]]. *)
Definition arc_centre (lo hi r x : Z) : option Z :=
  if x <? lo + r then Some (lo + r)
  else if hi - r <? x then Some (hi - r)
  else None.

Definition outside_corner (c : DrawCall) (x y : Z) : bool :=
  match c with
  | RoundedRectangle (Int x0, Int y0, Int x1, Int y1) (Int r) _ =>
      if (0 <=? r) && (2 * r <=? x1 - x0) && (2 * r <=? y1 - y0) then
        match arc_centre x0 x1 r x, arc_centre y0 y1 r y with
        | Some cx, Some cy =>
            (r + 1) * (r + 1) <? (x - cx) * (x - cx) + (y - cy) * (y - cy)
        | _, _ => false
        end
      else false
  | _ => false
  end.

(** The outer bound: [false] where the call certainly sets no pixel. *)
Definition envelope (c : DrawCall) (x y : Z) : bool :=
  match bbox c with
  | Some ((xmin, xmax), (ymin, ymax)) =>
      (xmin <=? x) && (x <=? xmax) && (ymin <=? y) && (y <=? ymax)
      && negb (outside_corner c x y)
  | None => true
  end.

Definition sound_rasteriser (covers : DrawCall -> Z -> Z -> bool) : Prop :=
  forall c x y, covers c x y = true -> envelope c x y = true.

(** A sequence of calls applied in order. *)
Definition draw_all (covers : DrawCall -> Z -> Z -> bool)
           (cs : list DrawCall) (img : Image) : Image :=
  fold_left (fun im c => draw_call covers c im) cs img.

End PIL.

(** ** The script *)

Module Icon.
Import Py PIL.

Definition size : Z := 512.
Definition color1 : Z * Z * Z := (102, 187, 106).
Definition color2 : Z * Z * Z := (46, 125, 50).
Definition steps : Z := 50.

(** [t[0]], [t[1]], [t[2]] on a triple. *)
Definition item0 (t : Z * Z * Z) : Z := fst (fst t).
Definition item1 (t : Z * Z * Z) : Z := snd (fst t).
Definition item2 (t : Z * Z * Z) : Z := snd t.

(** [int(size * 0.2)] *)
Definition corner_radius : option Z :=
  Py.int (mul (Int size) (Float (float_lit 2 10))).

(** [i / (steps - 1)] *)
Definition ratio (i : Z) : option num := truediv (Int i) (Int (steps - 1)).

(** [c1 * (1 - ratio) + c2 * ratio], the float under [int(...)] on
    lines 23-25. *)
Definition blend (c1 c2 : Z) (ratio : num) : num :=
  add (mul (Int c1) (sub (Int 1) ratio)) (mul (Int c2) ratio).

(** [int(c1 * (1 - ratio) + c2 * ratio)] *)
Definition channel (c1 c2 : Z) (ratio : num) : option Z :=
  Py.int (blend c1 c2 ratio).

(** The colour of gradient step [i]: [(r, g, b, 255)]. *)
Definition step_color (i : Z) : option Color :=
  ratio ← ratio i;
  r ← channel (item0 color1) (item0 color2) ratio;
  g ← channel (item1 color1) (item1 color2) ratio;
  b ← channel (item2 color1) (item2 color2) ratio;
  Some (RGBA r g b 255).

(** [int(i * 2)] *)
Definition step_offset (i : Z) : option Z := Py.int (mul (Int i) (Int 2)).

Definition center_x : option Z := floordiv size 2.
Definition center_y : option Z := floordiv size 2.

(** [int(size * 0.35)] *)
Definition leaf_size : option Z :=
  Py.int (mul (Int size) (Float (float_lit 35 100))).

(** [c + s * k] and [c - s * k] with a decimal factor [k = n/10]. *)
Definition plus (c s n : Z) : num :=
  add (Int c) (mul (Int s) (Float (float_lit n 10))).
Definition minus (c s n : Z) : num :=
  sub (Int c) (mul (Int s) (Float (float_lit n 10))).

Definition leaf_points (cx cy ls : Z) : list Point :=
  [ (Int cx, sub (Int cy) (Int ls));
    (plus cx ls 6, minus cy ls 3);
    (plus cx ls 8, plus cy ls 2);
    (plus cx ls 3, plus cy ls 6);
    (Int cx, plus cy ls 4);
    (minus cx ls 3, plus cy ls 6);
    (minus cx ls 8, plus cy ls 2);
    (minus cx ls 6, minus cy ls 3) ].

Definition vein_points (cx cy ls : Z) : list Point :=
  [ (Int cx, minus cy ls 8);
    (Int cx, plus cy ls 3) ].

Definition detail_points (cx cy ls : Z) : list Point :=
  [ (minus cx ls 4, minus cy ls 1);
    (plus cx ls 4, plus cy ls 1);
    (minus cx ls 1, plus cy ls 4) ].

(** [[point[0]-4, point[1]-4, point[0]+4, point[1]+4]] *)
Definition detail_box (point : Point) : Box :=
  (sub (fst point) (Int 4), sub (snd point) (Int 4),
   add (fst point) (Int 4), add (snd point) (Int 4)).

Definition white (a : Z) : Color := RGBA 255 255 255 a.

Section Script.

Variable covers : DrawCall -> Z -> Z -> bool.

(** The body of the gradient loop (lines 21-33). *)
Definition gradient_step (corner_radius : Z) (i : Z) (draw : Image)
  : option Image :=
  fill ← step_color i;
  offset ← step_offset i;
  Some (rounded_rectangle covers
          (Int offset, Int offset, Int (size - offset), Int (size - offset))
          (Int corner_radius) fill draw).

(** The body of the detail loop (lines 69-71). *)
Definition detail_step (point : Point) (draw : Image) : option Image :=
  Some (ellipse covers (detail_box point) (white 180) draw).

Definition create_carbon_tracker_icon : option Image :=
  let img := new (size, size) (RGBA 0 0 0 0) in
  let draw := img in
  corner_radius ← corner_radius;
  draw ← for_each (gradient_step corner_radius) (range steps) draw;
  center_x ← center_x;
  center_y ← center_y;
  leaf_size ← leaf_size;
  let draw := polygon covers (leaf_points center_x center_y leaf_size)
                      (white 255) draw in
  let draw := line covers (vein_points center_x center_y leaf_size)
                   (white 200) 6 draw in
  draw ← for_each detail_step
            (detail_points center_x center_y leaf_size) draw;
  Some draw.

End Script.

End Icon.

(** ** The module top level: file system and console *)

Module OS.

Inductive Event : Type :=
| FileWrite (path : string) (data : list Byte.byte)
| Stdout (line : string).

(** What the script can observe or change: the files, the paths that
    can be opened for writing (the directory exists and permits it),
    and the log of the effects performed so far, oldest first. *)
Record World : Type := mkWorld {
  files : gmap string (list Byte.byte);
  writable : gset string;
  log : list Event
}.

(** Create or overwrite a file; an I/O error is [None]. *)
Definition write_file (path : string) (data : list Byte.byte) (w : World)
  : option World :=
  if decide (path ∈ writable w)
  then Some {| files := <[path := data]> (files w);
               writable := writable w;
               log := log w ++ [FileWrite path data] |}
  else None.

Definition print (line : string) (w : World) : World :=
  {| files := files w; writable := writable w;
     log := log w ++ [Stdout line] |}.

Definition printed (evs : list Event) : list string :=
  flat_map (fun e => match e with Stdout l => [l] | FileWrite _ _ => [] end) evs.

Definition written (evs : list Event) : list (string * list Byte.byte) :=
  flat_map (fun e => match e with FileWrite p d => [(p, d)] | Stdout _ => [] end) evs.

End OS.

Module Main.
Import Py PIL Icon OS.

Definition icon_path : string := "assets/icons/app_icon.png".
Definition line1 : string :=
  "✅ Generated app icon: assets/icons/app_icon.png".
Definition line2 : string := "📏 Icon size: 512x512px".

Section Toplevel.

Variable covers : DrawCall -> Z -> Z -> bool.
(** Pillow's PNG encoder. *)
Variable encode_png : Image -> list Byte.byte.

(** [img.save(fp)] *)
Definition save (img : Image) (fp : string) (w : World) : option World :=
  write_file fp (encode_png img) w.

(** Lines 76-79. *)
Definition main (w : World) : option World :=
  icon ← create_carbon_tracker_icon covers;
  w ← save icon icon_path w;
  let w := print line1 w in
  let w := print line2 w in
  Some w.

End Toplevel.

End Main.

(** ** The trace of the script in closed form *)

Module Trace.
Import Py PIL Icon.

(** The channel of step [i] as exact integer arithmetic: the floor of
    [(c1 * (49 - i) + c2 * i) / 49]. *)
Definition exact_channel (c1 c2 i : Z) : Z := (c1 * (49 - i) + c2 * i) / 49.

Definition exact_fill (i : Z) : Color :=
  RGBA (exact_channel 102 46 i) (exact_channel 187 125 i)
       (exact_channel 106 50 i) 255.

Definition gradient_rect (i : Z) : DrawCall :=
  RoundedRectangle
    (Int (2 * i), Int (2 * i), Int (512 - 2 * i), Int (512 - 2 * i))
    (Int 102) (exact_fill i).

Definition detail_call (p : Point) : DrawCall :=
  Ellipse (detail_box p) (white 180).

Definition leaf_calls : list DrawCall :=
  Polygon (leaf_points 256 256 179) (white 255)
  :: Line (vein_points 256 256 179) (white 200) 6
  :: (detail_call <$> detail_points 256 256 179).

Definition icon_calls : list DrawCall :=
  (gradient_rect <$> range 50) ++ leaf_calls.

Definition blank : Image := new (512, 512) (RGBA 0 0 0 0).

Definition color_eqb (a b : Color) : bool :=
  (red a =? red b) && (green a =? green b)
  && (blue a =? blue b) && (alpha a =? alpha b).

Definition step_agrees (i : Z) : bool :=
  match step_color i with
  | Some c => color_eqb c (exact_fill i)
  | None => false
  end.

Definition is_polygon (c : DrawCall) : bool :=
  match c with
  | Polygon _ _ => true
  | _ => false
  end.

(** *** Reading pixels *)

Lemma getpixel_in_range (img : Image) (x y : Z) :
  0 <= x < width img -> 0 <= y < height img ->
  getpixel img x y = Some (pixels img x y).
Proof.
  intros Hx Hy; unfold getpixel, index.
  destruct (Z.ltb_spec x 0); [lia|].
  destruct (Z.ltb_spec y 0); [lia|].
  cbv zeta.
  destruct (Z.leb_spec 0 x); [|lia].
  destruct (Z.ltb_spec x (width img)); [|lia].
  destruct (Z.leb_spec 0 y); [|lia].
  destruct (Z.ltb_spec y (height img)); [|lia].
  reflexivity.
Qed.

Lemma getpixel_inv (img : Image) (x y : Z) (p : Color) :
  getpixel img x y = Some p ->
  0 <= index (width img) x < width img
  /\ 0 <= index (height img) y < height img
  /\ p = pixels img (index (width img) x) (index (height img) y).
Proof.
  unfold getpixel; cbv zeta.
  destruct (Z.leb_spec 0 (index (width img) x)); [|discriminate].
  destruct (Z.ltb_spec (index (width img) x) (width img)); [|discriminate].
  destruct (Z.leb_spec 0 (index (height img) y)); [|discriminate].
  destruct (Z.ltb_spec (index (height img) y) (height img)); [|discriminate].
  cbn [andb]; intros [= <-]; repeat split; assumption.
Qed.

(** *** Arithmetic of the closed form *)

Lemma color_eqb_eq (a b : Color) : color_eqb a b = true -> a = b.
Proof.
  destruct a, b; unfold color_eqb; simpl; intros H.
  repeat (apply andb_prop in H; destruct H as [H ?]).
  f_equal; lia.
Qed.

Lemma exact_channel_bounds (c1 c2 i : Z) :
  c2 <= c1 -> 0 <= i <= 49 -> c2 <= exact_channel c1 c2 i <= c1.
Proof.
  intros Hc Hi; unfold exact_channel; split.
  - apply Z.div_le_lower_bound; nia.
  - apply Z.div_le_upper_bound; nia.
Qed.

Lemma exact_channel_antitone (c1 c2 i j : Z) :
  c2 <= c1 -> i <= j -> exact_channel c1 c2 j <= exact_channel c1 c2 i.
Proof.
  intros Hc Hij; unfold exact_channel.
  apply Z.div_le_mono; nia.
Qed.

(** *** The float computation agrees with the closed form *)

Lemma steps_agree : forallb step_agrees (range 50) = true.
Proof. vm_compute; reflexivity. Qed.

Lemma in_range (n i : Z) : 0 <= i < n -> In i (range n).
Proof.
  intros Hi; unfold range.
  apply list_elem_of_In, list_elem_of_fmap.
  exists (Z.to_nat i); split; [lia|].
  apply elem_of_seq; lia.
Qed.

Lemma lookup_range (n : Z) (i : nat) :
  (i < Z.to_nat n)%nat -> range n !! i = Some (Z.of_nat i).
Proof.
  intros Hi; unfold range.
  rewrite list_lookup_fmap, lookup_seq_lt by exact Hi; reflexivity.
Qed.

Lemma step_color_exact (i : Z) :
  0 <= i < 50 -> step_color i = Some (exact_fill i).
Proof.
  intros Hi.
  pose proof (proj1 (forallb_forall _ _) steps_agree i (in_range 50 i Hi)) as H.
  unfold step_agrees in H.
  destruct (step_color i) as [c|]; [|discriminate].
  apply color_eqb_eq in H; congruence.
Qed.

Lemma step_offset_exact (i : Z) : step_offset i = Some (2 * i).
Proof. unfold step_offset; simpl; f_equal; lia. Qed.

Lemma corner_radius_exact : corner_radius = Some 102.
Proof. vm_compute; reflexivity. Qed.

Lemma leaf_size_exact : leaf_size = Some 179.
Proof. vm_compute; reflexivity. Qed.

Lemma center_exact : center_x = Some 256 /\ center_y = Some 256.
Proof. split; reflexivity. Qed.

(** *** The loops *)

Section Loops.
Variable covers : DrawCall -> Z -> Z -> bool.

Lemma gradient_step_exact (i : Z) (img : Image) :
  0 <= i < 50 ->
  gradient_step covers 102 i img
  = Some (draw_call covers (gradient_rect i) img).
Proof.
  intros Hi; unfold gradient_step.
  rewrite (step_color_exact i Hi), step_offset_exact.
  cbn [mbind option_bind].
  unfold rounded_rectangle, gradient_rect, size; reflexivity.
Qed.

Lemma gradient_loop (l : list Z) :
  Forall (fun i => 0 <= i < 50) l ->
  forall img,
    for_each (gradient_step covers 102) l img
    = Some (draw_all covers (gradient_rect <$> l) img).
Proof.
  induction 1 as [|i l Hi _ IH]; intros img; simpl.
  - reflexivity.
  - rewrite (gradient_step_exact i img Hi); apply IH.
Qed.

Lemma detail_loop (l : list Point) (img : Image) :
  for_each (detail_step covers) l img
  = Some (draw_all covers (detail_call <$> l) img).
Proof.
  revert img; induction l as [|p l IH]; intros img; simpl.
  - reflexivity.
  - apply IH.
Qed.

Lemma draw_all_app (cs ds : list DrawCall) (img : Image) :
  draw_all covers (cs ++ ds) img
  = draw_all covers ds (draw_all covers cs img).
Proof. unfold draw_all; apply fold_left_app. Qed.

Lemma draw_all_cons (c : DrawCall) (cs : list DrawCall) (img : Image) :
  draw_all covers (c :: cs) img
  = draw_all covers cs (draw_call covers c img).
Proof. reflexivity. Qed.

Lemma history_draw_all (cs : list DrawCall) (img : Image) :
  history (draw_all covers cs img) = history img ++ cs.
Proof.
  revert img; induction cs as [|c cs IH]; intros img; simpl.
  - symmetry; apply app_nil_r.
  - unfold draw_all in *; simpl; rewrite IH; simpl.
    rewrite <- app_assoc; reflexivity.
Qed.

Lemma size_draw_all (cs : list DrawCall) (img : Image) :
  width (draw_all covers cs img) = width img
  /\ height (draw_all covers cs img) = height img.
Proof.
  revert img; induction cs as [|c cs IH]; intros img; simpl.
  - split; reflexivity.
  - unfold draw_all in *; simpl; destruct (IH (draw_call covers c img)); auto.
Qed.

(** A pixel no call covers keeps its value. *)
Lemma pixels_draw_all (cs : list DrawCall) (x y : Z) :
  Forall (fun c => covers c x y = false) cs ->
  forall img, pixels (draw_all covers cs img) x y = pixels img x y.
Proof.
  induction 1 as [|c cs Hc _ IH]; intros img; simpl.
  - reflexivity.
  - unfold draw_all in *; simpl; rewrite IH; simpl.
    rewrite Hc; reflexivity.
Qed.

Lemma range_bounded : Forall (fun i => 0 <= i < 50) (range 50).
Proof.
  apply Forall_forall; intros i Hi.
  apply list_elem_of_fmap in Hi as [n [-> Hn]].
  apply elem_of_seq in Hn; simpl in Hn; lia.
Qed.

(** The script returns, and what it returns is the blank image with
    [icon_calls] applied in order. *)
Lemma create_trace :
  create_carbon_tracker_icon covers
  = Some (draw_all covers icon_calls blank).
Proof.
  unfold create_carbon_tracker_icon.
  rewrite corner_radius_exact; cbn [mbind option_bind].
  change (range steps) with (range 50).
  rewrite (gradient_loop _ range_bounded); cbn [mbind option_bind].
  destruct center_exact as [-> ->]; cbn [mbind option_bind].
  rewrite leaf_size_exact; cbn [mbind option_bind].
  rewrite detail_loop; cbn [mbind option_bind].
  unfold polygon, line, icon_calls, leaf_calls.
  change (new (size, size) (RGBA 0 0 0 0)) with blank.
  rewrite draw_all_app, !draw_all_cons; reflexivity.
Qed.

Lemma create_history :
  exists img,
    create_carbon_tracker_icon covers = Some img
    /\ history img = icon_calls.
Proof.
  exists (draw_all covers icon_calls blank); split.
  - apply create_trace.
  - rewrite history_draw_all; reflexivity.
Qed.

End Loops.

Lemma lookup_gradient (i : nat) :
  (i < 50)%nat -> icon_calls !! i = Some (gradient_rect (Z.of_nat i)).
Proof.
  intros Hi; unfold icon_calls.
  rewrite lookup_app_l.
  - rewrite list_lookup_fmap, lookup_range by (simpl; lia); reflexivity.
  - rewrite length_fmap; unfold range; rewrite length_fmap, length_seq.
    simpl; lia.
Qed.

Lemma lookup_leaf (i : nat) :
  icon_calls !! (50 + i)%nat = leaf_calls !! i.
Proof.
  unfold icon_calls.
  rewrite lookup_app_r.
  - f_equal. unfold range; rewrite !length_fmap, length_seq. simpl; lia.
  - unfold range; rewrite !length_fmap, length_seq. simpl; lia.
Qed.

End Trace.

(** ** The gradient *)

Module Gradient.
Import Py PIL Icon Trace.

(** Rounding a float to the nearest integer, ties to even (Python's
    [round]): the operation the written description of the gradient names
    where the script has [int]. *)
Definition round_nearest (f : float) : option Z :=
  match f with
  | S754_zero _ => Some 0
  | S754_finite s m e =>
      let a := match e with
               | Z0 => Zpos m
               | Zpos p => Zpos m * 2 ^ Zpos p
               | Zneg p =>
                   let d := 2 ^ Zpos p in
                   let q := Zpos m / d in
                   match 2 * (Zpos m mod d) ?= d with
                   | Lt => q
                   | Gt => q + 1
                   | Eq => if Z.even q then q else q + 1
                   end
               end in
      Some (if s then - a else a)
  | S754_infinity _ | S754_nan => None
  end.

(** [round(c1 * (1 - ratio) + c2 * ratio)] *)
Definition rounded_channel (c1 c2 : Z) (ratio : num) : option Z :=
  match blend c1 c2 ratio with
  | Int z => Some z
  | Float f => round_nearest f
  end.

(** The colour of step [i] as the description words it: [step_color] with
    rounding to nearest in place of [int]. *)
Definition rounded_step_color (i : Z) : option Color :=
  ratio ← ratio i;
  r ← rounded_channel (item0 color1) (item0 color2) ratio;
  g ← rounded_channel (item1 color1) (item1 color2) ratio;
  b ← rounded_channel (item2 color1) (item2 color2) ratio;
  Some (RGBA r g b 255).

(** At step 7 the blend is exactly 94.0, 178.28..., 98.0: [int] keeps 94
    and 98 (no rounding error pushes them below) and drops the fraction
    of the green channel. *)
Example step_color_7 : step_color 7 = Some (RGBA 94 178 98 255).
Proof. vm_compute; reflexivity. Qed.

Example blend_red_7 :
  (t ← ratio 7; Some (blend 102 46 t))
  = Some (Float (S754_finite false 6614661952700416 (-46))).
Proof. vm_compute; reflexivity. Qed.

(** The rasteriser used where a concrete one is needed. *)
Definition sample_covers : DrawCall -> Z -> Z -> bool := envelope.

Lemma step_color_inv (i : Z) (c : Color) :
  step_color i = Some c ->
  exists t rd gn bl,
    truediv (Int i) (Int 49) = Some t
    /\ Py.int (blend 102 46 t) = Some rd
    /\ Py.int (blend 187 125 t) = Some gn
    /\ Py.int (blend 106 50 t) = Some bl
    /\ c = RGBA rd gn bl 255.
Proof.
  unfold step_color, channel.
  change (ratio i) with (truediv (Int i) (Int 49)).
  change (item0 color1) with 102; change (item0 color2) with 46.
  change (item1 color1) with 187; change (item1 color2) with 125.
  change (item2 color1) with 106; change (item2 color2) with 50.
  destruct (truediv (Int i) (Int 49)) as [t|] eqn:Ht; [|discriminate].
  cbn [mbind option_bind].
  destruct (Py.int (blend 102 46 t)) as [rd|] eqn:Hr; [|discriminate].
  cbn [mbind option_bind].
  destruct (Py.int (blend 187 125 t)) as [gn|] eqn:Hg; [|discriminate].
  cbn [mbind option_bind].
  destruct (Py.int (blend 106 50 t)) as [bl|] eqn:Hb; [|discriminate].
  cbn [mbind option_bind].
  intros [= <-]; exists t, rd, gn, bl; repeat split; assumption || reflexivity.
Qed.

(** C1, as the code has it.  Every gradient step [i] in [0, 50) fills its
    rectangle with [(r, g, b, 255)] where each channel is
    [int(start * (1 - ratio) + end * ratio)] and [ratio = i / 49]: the
    binary64 value truncated toward zero, not rounded to nearest.  On all
    50 steps the truncated value is the exact floor of
    [(start * (49 - i) + end * i) / 49]. *)
Theorem gradient_fill_truncates (covers : DrawCall -> Z -> Z -> bool) :
  exists img,
    create_carbon_tracker_icon covers = Some img
    /\ forall i : nat, (i < 50)%nat ->
       exists t rd gn bl,
         truediv (Int (Z.of_nat i)) (Int 49) = Some t
         /\ Py.int (blend 102 46 t) = Some rd
         /\ Py.int (blend 187 125 t) = Some gn
         /\ Py.int (blend 106 50 t) = Some bl
         /\ ink <$> history img !! i = Some (RGBA rd gn bl 255)
         /\ rd = (102 * (49 - Z.of_nat i) + 46 * Z.of_nat i) / 49
         /\ gn = (187 * (49 - Z.of_nat i) + 125 * Z.of_nat i) / 49
         /\ bl = (106 * (49 - Z.of_nat i) + 50 * Z.of_nat i) / 49.
Proof.
  destruct (create_history covers) as [img [Hc Hh]].
  exists img; split; [exact Hc|]; intros i Hi.
  assert (Hs : step_color (Z.of_nat i) = Some (exact_fill (Z.of_nat i)))
    by (apply step_color_exact; lia).
  destruct (step_color_inv _ _ Hs) as (t & rd & gn & bl & Ht & Hr & Hg & Hb & E).
  exists t, rd, gn, bl.
  rewrite Hh, (lookup_gradient i Hi); cbn [fmap option_fmap option_map ink gradient_rect].
  rewrite E; repeat split; try assumption.
  all: unfold exact_fill, exact_channel in E; congruence.
Qed.

Lemma gradient_fill_truncates_at_step_1 :
  exists img,
    create_carbon_tracker_icon sample_covers = Some img
    /\ exists t rd gn bl,
         truediv (Int 1) (Int 49) = Some t
         /\ Py.int (blend 102 46 t) = Some rd
         /\ Py.int (blend 187 125 t) = Some gn
         /\ Py.int (blend 106 50 t) = Some bl
         /\ ink <$> history img !! 1%nat = Some (RGBA rd gn bl 255)
         /\ rd = (102 * (49 - 1) + 46 * 1) / 49
         /\ gn = (187 * (49 - 1) + 125 * 1) / 49
         /\ bl = (106 * (49 - 1) + 50 * 1) / 49.
Proof.
  destruct (gradient_fill_truncates sample_covers) as [img [Hc H]].
  exists img; split; [exact Hc|].
  apply (H 1%nat); lia.
Defined.

(** C1, as the description states it, fails: at step 1 the script's colour
    is (100, 185, 104, 255), while rounding to nearest gives
    (101, 186, 105, 255). *)
Lemma gradient_fill_not_rounded_at_step_1 :
  step_color 1 = Some (RGBA 100 185 104 255)
  /\ rounded_step_color 1 = Some (RGBA 101 186 105 255)
  /\ step_color 1 <> rounded_step_color 1.
Proof.
  assert (H1 : step_color 1 = Some (RGBA 100 185 104 255))
    by (vm_compute; reflexivity).
  assert (H2 : rounded_step_color 1 = Some (RGBA 101 186 105 255))
    by (vm_compute; reflexivity).
  repeat split; try assumption.
  rewrite H1, H2; discriminate.
Qed.

(** C2.  The loop body runs once for each of the 50 elements of
    [range(steps)], whatever the rasteriser does; after the run the image
    has received exactly 50 rounded rectangles, and the [i]-th call is the
    rounded rectangle from [(2i, 2i)] to [(512 - 2i, 512 - 2i)] with the
    same radius 102 at every step. *)
Theorem gradient_loop_fifty_rectangles (covers : DrawCall -> Z -> Z -> bool) :
  length (range steps) = 50%nat
  /\ exists img,
       create_carbon_tracker_icon covers = Some img
       /\ length (List.filter is_rounded_rectangle (history img)) = 50%nat
       /\ forall i : nat, (i < 50)%nat ->
          exists fill,
            history img !! i
            = Some (RoundedRectangle
                      (Int (2 * Z.of_nat i), Int (2 * Z.of_nat i),
                       Int (512 - 2 * Z.of_nat i), Int (512 - 2 * Z.of_nat i))
                      (Int 102) fill).
Proof.
  split; [reflexivity|].
  destruct (create_history covers) as [img [Hc Hh]].
  exists img; split; [exact Hc|]; split.
  - rewrite Hh; vm_compute; reflexivity.
  - intros i Hi; exists (exact_fill (Z.of_nat i)).
    rewrite Hh; apply (lookup_gradient i Hi).
Qed.

Lemma gradient_loop_fifty_rectangles_at_step_49 :
  exists img,
    create_carbon_tracker_icon sample_covers = Some img
    /\ exists fill,
         history img !! 49%nat
         = Some (RoundedRectangle (Int 98, Int 98, Int 414, Int 414)
                                  (Int 102) fill).
Proof.
  destruct (gradient_loop_fifty_rectangles sample_covers) as [_ [img [Hc [_ H]]]].
  exists img; split; [exact Hc|].
  apply (H 49%nat); lia.
Defined.

(** C6.  The first rectangle is filled with the start colour
    (102, 187, 106) and the last with the end colour (46, 125, 50), both
    with alpha 255.  [color1] and [color2] are tuples bound once and only
    indexed: they are constants of the model. *)
Theorem gradient_endpoints_exact (covers : DrawCall -> Z -> Z -> bool) :
  color1 = (102, 187, 106)
  /\ color2 = (46, 125, 50)
  /\ step_color 0
     = Some (RGBA (item0 color1) (item1 color1) (item2 color1) 255)
  /\ step_color 49
     = Some (RGBA (item0 color2) (item1 color2) (item2 color2) 255)
  /\ exists img,
       create_carbon_tracker_icon covers = Some img
       /\ ink <$> history img !! 0%nat = Some (RGBA 102 187 106 255)
       /\ ink <$> history img !! 49%nat = Some (RGBA 46 125 50 255).
Proof.
  split; [reflexivity|]; split; [reflexivity|].
  split; [vm_compute; reflexivity|]; split; [vm_compute; reflexivity|].
  destruct (create_history covers) as [img [Hc Hh]].
  exists img; split; [exact Hc|].
  rewrite Hh, (lookup_gradient 0), (lookup_gradient 49) by lia.
  split; reflexivity.
Qed.

(** C9.  For steps [i <= j] below 50 the fill colours satisfy
    46 <= R_j <= R_i <= 102, 125 <= G_j <= G_i <= 187 and
    50 <= B_j <= B_i <= 106, with alpha 255: every channel stays between
    the end and the start value and never increases with the step. *)
Theorem gradient_channels_bounded_antitone
        (covers : DrawCall -> Z -> Z -> bool) :
  exists img,
    create_carbon_tracker_icon covers = Some img
    /\ forall (i j : nat) (ci cj : DrawCall),
         (i <= j < 50)%nat ->
         history img !! i = Some ci ->
         history img !! j = Some cj ->
         46 <= red (ink cj) <= red (ink ci) /\ red (ink ci) <= 102
         /\ 125 <= green (ink cj) <= green (ink ci) /\ green (ink ci) <= 187
         /\ 50 <= blue (ink cj) <= blue (ink ci) /\ blue (ink ci) <= 106
         /\ alpha (ink ci) = 255 /\ alpha (ink cj) = 255.
Proof.
  destruct (create_history covers) as [img [Hc Hh]].
  exists img; split; [exact Hc|].
  intros i j ci cj Hij Hi Hj.
  rewrite Hh, lookup_gradient in Hi by lia.
  rewrite Hh, lookup_gradient in Hj by lia.
  injection Hi as <-; injection Hj as <-.
  cbn [ink gradient_rect exact_fill red green blue alpha].
  pose proof (exact_channel_bounds 102 46 (Z.of_nat i)).
  pose proof (exact_channel_bounds 102 46 (Z.of_nat j)).
  pose proof (exact_channel_antitone 102 46 (Z.of_nat i) (Z.of_nat j)).
  pose proof (exact_channel_bounds 187 125 (Z.of_nat i)).
  pose proof (exact_channel_bounds 187 125 (Z.of_nat j)).
  pose proof (exact_channel_antitone 187 125 (Z.of_nat i) (Z.of_nat j)).
  pose proof (exact_channel_bounds 106 50 (Z.of_nat i)).
  pose proof (exact_channel_bounds 106 50 (Z.of_nat j)).
  pose proof (exact_channel_antitone 106 50 (Z.of_nat i) (Z.of_nat j)).
  lia.
Qed.

Lemma gradient_channels_bounded_antitone_at_3_10 :
  exists img ci cj,
    create_carbon_tracker_icon sample_covers = Some img
    /\ history img !! 3%nat = Some ci
    /\ history img !! 10%nat = Some cj
    /\ 46 <= red (ink cj) <= red (ink ci) /\ red (ink ci) <= 102
    /\ 125 <= green (ink cj) <= green (ink ci) /\ green (ink ci) <= 187
    /\ 50 <= blue (ink cj) <= blue (ink ci) /\ blue (ink ci) <= 106
    /\ alpha (ink ci) = 255 /\ alpha (ink cj) = 255.
Proof.
  destruct (gradient_channels_bounded_antitone sample_covers) as [img [Hc H]].
  destruct (create_history sample_covers) as [img' [Hc' Hh]].
  assert (img' = img) as -> by congruence.
  exists img, (gradient_rect 3), (gradient_rect 10).
  assert (H3 : history img !! 3%nat = Some (gradient_rect 3))
    by (rewrite Hh; apply (lookup_gradient 3); lia).
  assert (H10 : history img !! 10%nat = Some (gradient_rect 10))
    by (rewrite Hh; apply (lookup_gradient 10); lia).
  split; [exact Hc|]; split; [exact H3|]; split; [exact H10|].
  apply (H 3%nat 10%nat); [lia | exact H3 | exact H10].
Defined.

End Gradient.

(** ** The leaf *)

Module Leaf.
Import Py PIL Icon Trace.

(** [0 < a < 512]: strictly between the edges of the 512 x 512 square. *)
Definition strictly_inside (a : num) : bool :=
  ltb (Int 0) a && ltb a (Int size).

(** [0 <= a <= 512]: no farther than the size of the image.  The bound
    512 itself is one past the last pixel column or row. *)
Definition within_size (a : num) : bool :=
  leb (Int 0) a && leb a (Int size).

(** [0 <= a <= 511]: a position on the pixel grid of the image, whose
    columns and rows are 0..511. *)
Definition on_grid (a : num) : bool :=
  leb (Int 0) a && leb a (Int (size - 1)).

(** The bounding box of a call, stroke width included, lies on the pixel
    grid. *)
Definition fits_grid (c : DrawCall) : bool :=
  match bbox c with
  | Some ((xmin, xmax), (ymin, ymax)) =>
      (0 <=? xmin) && (xmax <=? size - 1) && (0 <=? ymin) && (ymax <=? size - 1)
  | None => false
  end.

(** The exact value of a finite number, as a rational. *)
Definition float_value (f : float) : option Q :=
  match f with
  | S754_zero _ => Some 0%Q
  | S754_finite s m e =>
      let v := match e with
               | Z0 => inject_Z (Zpos m)
               | Zpos p => inject_Z (Zpos m * 2 ^ Zpos p)
               | Zneg p => Qmake (Zpos m) (2 ^ p)
               end in
      Some (if s then Qopp v else v)
  | S754_infinity _ | S754_nan => None
  end.

Definition value (a : num) : option Q :=
  match a with
  | Int z => Some (inject_Z z)
  | Float f => float_value f
  end.

(** [a] is the rational [q] up to binary64 rounding: within 2^-40. *)
Definition near (a : num) (q : Q) : bool :=
  match value a with
  | Some v => Qle_bool (Qabs (v - q)) (1 # 1099511627776)
  | None => false
  end.

(** The eight vertices of the leaf as offsets from the centre, in tenths
    of [leaf_size]: top, top right, right, bottom right, bottom centre,
    bottom left, left, top left. *)
Definition leaf_offsets : list (Z * Z) :=
  [ (0, -10); (6, -3); (8, 2); (3, 6); (0, 4); (-3, 6); (-8, 2); (-6, -3) ].

(** The point at offset [o] (in tenths of [ls]) from the centre. *)
Definition offset_point (cx cy ls : Z) (o : Z * Z) : Q * Q :=
  ((inject_Z cx + inject_Z ls * (inject_Z (fst o) / 10))%Q,
   (inject_Z cy + inject_Z ls * (inject_Z (snd o) / 10))%Q).

Definition at_offset (cx cy ls : Z) (p : Point) (o : Z * Z) : Prop :=
  near (fst p) (fst (offset_point cx cy ls o)) = true
  /\ near (snd p) (snd (offset_point cx cy ls o)) = true.

Lemma forallb_elem {A : Type} (p : A -> bool) (l : list A) (x : A) :
  forallb p l = true -> x ∈ l -> p x = true.
Proof.
  intros H Hx; apply (proj1 (forallb_forall p l) H), list_elem_of_In, Hx.
Qed.

Lemma drop_icon_calls : drop 50 icon_calls = leaf_calls.
Proof.
  unfold icon_calls; apply drop_app_length'.
  unfold range; rewrite !length_fmap, length_seq; reflexivity.
Qed.

Lemma leaf_calls_listed :
  leaf_calls
  = [ Polygon (leaf_points 256 256 179) (white 255);
      Line (vein_points 256 256 179) (white 200) 6;
      Ellipse (detail_box (minus 256 179 4, minus 256 179 1)) (white 180);
      Ellipse (detail_box (plus 256 179 4, plus 256 179 1)) (white 180);
      Ellipse (detail_box (minus 256 179 1, plus 256 179 4)) (white 180) ].
Proof. reflexivity. Qed.

Lemma leaf_calls_not_rectangles :
  forallb (fun c => negb (is_rounded_rectangle c)) leaf_calls = true.
Proof. vm_compute; reflexivity. Qed.

Lemma leaf_calls_strictly_inside :
  forallb (fun c => forallb strictly_inside (coordinates c)) leaf_calls = true.
Proof. vm_compute; reflexivity. Qed.

Lemma icon_calls_within_size :
  forallb (fun c => forallb within_size (coordinates c)) icon_calls = true.
Proof. vm_compute; reflexivity. Qed.

Lemma later_calls_on_grid :
  forallb (fun c => forallb on_grid (coordinates c) && fits_grid c)
          (drop 1 icon_calls) = true.
Proof. vm_compute; reflexivity. Qed.

Lemma leaf_vertices_at_offsets :
  Forall2 (at_offset 256 256 179) (leaf_points 256 256 179) leaf_offsets.
Proof.
  unfold leaf_points, leaf_offsets.
  repeat (constructor; [split; vm_compute; reflexivity|]).
  constructor.
Qed.

(** C5, as the description states it, fails: the scalar the leaf is placed
    with is the integer 179, and 179 is not 179.2. *)
Lemma leaf_size_is_not_179_2 :
  exists z, leaf_size = Some z /\ ~ (inject_Z z == 1792 # 10)%Q.
Proof.
  exists 179; split.
  - vm_compute; reflexivity.
  - unfold Qeq; simpl; lia.
Qed.

(** C5, as the code has it.  The leaf is placed around the centre
    (256, 256) with [leaf_size = int(512 * 0.35) = 179]: the product lies
    strictly between 179 and 180 and [int] drops its fraction.  The
    polygon, the vein and the three dots are all computed from 256, 256
    and 179. *)
Theorem leaf_geometry_uses_truncated_size
        (covers : DrawCall -> Z -> Z -> bool) :
  center_x = Some 256
  /\ center_y = Some 256
  /\ floor (mul (Int size) (Float (float_lit 35 100))) = Some 179
  /\ ceil (mul (Int size) (Float (float_lit 35 100))) = Some 180
  /\ leaf_size = Some 179
  /\ exists img,
       create_carbon_tracker_icon covers = Some img
       /\ drop 50 (history img)
          = Polygon (leaf_points 256 256 179) (white 255)
            :: Line (vein_points 256 256 179) (white 200) 6
            :: ((fun p => Ellipse (detail_box p) (white 180))
                  <$> detail_points 256 256 179).
Proof.
  split; [reflexivity|]; split; [reflexivity|].
  split; [vm_compute; reflexivity|]; split; [vm_compute; reflexivity|].
  split; [exact leaf_size_exact|].
  destruct (create_history covers) as [img [Hc Hh]].
  exists img; split; [exact Hc|].
  rewrite Hh, drop_icon_calls; reflexivity.
Qed.

(** C7.  The 51st drawing call, made after the 50 gradient rectangles, is
    the leaf: the one polygon of the image, filled with
    (255, 255, 255, 255).  It has 8 vertices, and the k-th vertex is the
    centre (256, 256) moved by the k-th pair of [leaf_offsets] times
    [leaf_size] = 179: (0, -1), (0.6, -0.3), (0.8, 0.2), (0.3, 0.6),
    (0, 0.4), (-0.3, 0.6), (-0.8, 0.2), (-0.6, -0.3), each coordinate exact
    up to binary64 rounding.  Every rounded rectangle comes before it in
    the call order. *)
Theorem leaf_polygon_on_top (covers : DrawCall -> Z -> Z -> bool) :
  exists img,
    create_carbon_tracker_icon covers = Some img
    /\ history img !! 50%nat
       = Some (Polygon (leaf_points 256 256 179) (RGBA 255 255 255 255))
    /\ length (leaf_points 256 256 179) = 8%nat
    /\ List.filter is_polygon (history img)
       = [Polygon (leaf_points 256 256 179) (RGBA 255 255 255 255)]
    /\ (forall i : nat, (i < 50)%nat ->
        exists c, history img !! i = Some c
                  /\ is_rounded_rectangle c = true)
    /\ (forall (i : nat) (c : DrawCall),
        history img !! i = Some c ->
        is_rounded_rectangle c = true -> (i < 50)%nat)
    /\ center_x = Some 256 /\ center_y = Some 256 /\ leaf_size = Some 179
    /\ exists pts,
         history img !! 50%nat = Some (Polygon pts (RGBA 255 255 255 255))
         /\ Forall2 (at_offset 256 256 179) pts leaf_offsets.
Proof.
  destruct (create_history covers) as [img [Hc Hh]].
  exists img; split; [exact Hc|]; rewrite Hh.
  split; [apply (lookup_leaf 0)|].
  split; [reflexivity|].
  split; [vm_compute; reflexivity|].
  split; [|split].
  - intros i Hi; exists (gradient_rect (Z.of_nat i)); split.
    + apply (lookup_gradient i Hi).
    + reflexivity.
  - intros i c Hi Hr.
    destruct (decide (i < 50)%nat) as [Hlt|Hge]; [exact Hlt|exfalso].
    replace i with (50 + (i - 50))%nat in Hi by lia.
    rewrite lookup_leaf in Hi.
    apply list_elem_of_lookup_2 in Hi.
    pose proof (forallb_elem _ _ _ leaf_calls_not_rectangles Hi) as Hn.
    cbv beta in Hn; rewrite Hr in Hn; discriminate.
  - split; [reflexivity|]; split; [reflexivity|].
    split; [exact leaf_size_exact|].
    exists (leaf_points 256 256 179); split.
    + apply (lookup_leaf 0).
    + exact leaf_vertices_at_offsets.
Qed.

Lemma leaf_polygon_on_top_at_step_7 :
  exists img c,
    create_carbon_tracker_icon Gradient.sample_covers = Some img
    /\ history img !! 7%nat = Some c
    /\ is_rounded_rectangle c = true
    /\ (7 < 50)%nat.
Proof.
  destruct (leaf_polygon_on_top Gradient.sample_covers)
    as (img & Hc & _ & _ & _ & Hbefore & Hafter & _).
  destruct (create_history Gradient.sample_covers) as [img' [Hc' Hh]].
  assert (img' = img) as -> by congruence.
  assert (H7 : history img !! 7%nat = Some (gradient_rect 7))
    by (rewrite Hh; apply (lookup_gradient 7); lia).
  exists img, (gradient_rect 7).
  split; [exact Hc|]; split; [exact H7|]; split; [reflexivity|].
  apply (Hafter 7%nat (gradient_rect 7) H7); reflexivity.
Defined.

(** C10, as stated, fails: the first rectangle is given the far corner
    (512, 512), which is not on the pixel grid 0..511 of the image, so
    that shape does reach past the edge of the canvas. *)
Lemma first_rectangle_reaches_past_last_pixel :
  exists img c,
    create_carbon_tracker_icon Gradient.sample_covers = Some img
    /\ history img !! 0%nat = Some c
    /\ c = RoundedRectangle (Int 0, Int 0, Int 512, Int 512) (Int 102)
                            (RGBA 102 187 106 255)
    /\ width img = 512 /\ height img = 512
    /\ forallb on_grid (coordinates c) = false
    /\ fits_grid c = false
    /\ getpixel img 512 512 = None.
Proof.
  exists (draw_all Gradient.sample_covers icon_calls blank), (gradient_rect 0).
  split; [apply create_trace|].
  split; [rewrite history_draw_all; apply (lookup_gradient 0); lia|].
  split; [vm_compute; reflexivity|].
  destruct (size_draw_all Gradient.sample_covers icon_calls blank) as [Hw Hh].
  split; [exact Hw|]; split; [exact Hh|].
  split; [vm_compute; reflexivity|]; split; [vm_compute; reflexivity|].
  unfold getpixel; rewrite Hw, Hh; reflexivity.
Qed.

(** C10, as the code has it.  Every coordinate passed to a drawing call
    lies between 0 and 512.  At each of the 50 steps the rectangle runs
    from [offset] to [512 - offset] with [0 <= offset < 512 - offset] and
    [offset <= 98].  The five remaining calls are the polygon with its 8
    vertices, the vein with its 2 endpoints and the three ellipses given
    by the boxes 4 pixels around the detail points; every coordinate of
    these lies strictly between 0 and 512.  Every call but the first
    keeps to the pixel grid 0..511, coordinates and bounding box (stroke
    width included); the first rectangle alone is given 512, one past the
    last pixel. *)
Theorem drawing_coordinates_and_pixel_grid
        (covers : DrawCall -> Z -> Z -> bool) :
  exists img,
    create_carbon_tracker_icon covers = Some img
    /\ (forall i : nat, (i < 50)%nat ->
        exists offset fill,
          history img !! i
          = Some (RoundedRectangle
                    (Int offset, Int offset,
                     Int (512 - offset), Int (512 - offset))
                    (Int 102) fill)
          /\ offset = 2 * Z.of_nat i
          /\ 0 <= offset < 512 - offset
          /\ offset <= 98)
    /\ (exists leaf vein p1 p2 p3,
          drop 50 (history img)
          = [ Polygon leaf (white 255); Line vein (white 200) 6;
              Ellipse (detail_box p1) (white 180);
              Ellipse (detail_box p2) (white 180);
              Ellipse (detail_box p3) (white 180) ]
          /\ length leaf = 8%nat /\ length vein = 2%nat)
    /\ (forall c, c ∈ drop 50 (history img) ->
        Forall (fun a => strictly_inside a = true) (coordinates c))
    /\ (forall c, c ∈ history img ->
        Forall (fun a => within_size a = true) (coordinates c))
    /\ (forall c, c ∈ drop 1 (history img) ->
        Forall (fun a => on_grid a = true) (coordinates c)
        /\ fits_grid c = true)
    /\ (exists fill,
          history img !! 0%nat
          = Some (RoundedRectangle (Int 0, Int 0, Int 512, Int 512)
                                   (Int 102) fill)
          /\ on_grid (Int 512) = false).
Proof.
  destruct (create_history covers) as [img [Hc Hh]].
  exists img; split; [exact Hc|]; rewrite Hh, drop_icon_calls.
  split; [|split; [|split; [|split; [|split]]]].
  - intros i Hi.
    exists (2 * Z.of_nat i), (exact_fill (Z.of_nat i)).
    split; [apply (lookup_gradient i Hi)|]; lia.
  - exists (leaf_points 256 256 179), (vein_points 256 256 179),
      (minus 256 179 4, minus 256 179 1),
      (plus 256 179 4, plus 256 179 1),
      (minus 256 179 1, plus 256 179 4).
    split; [exact leaf_calls_listed|]; split; reflexivity.
  - intros c Hin; apply Forall_forall; intros a Ha.
    pose proof (forallb_elem _ _ _ leaf_calls_strictly_inside Hin) as H.
    apply (forallb_elem _ _ _ H Ha).
  - intros c Hin; apply Forall_forall; intros a Ha.
    pose proof (forallb_elem _ _ _ icon_calls_within_size Hin) as H.
    apply (forallb_elem _ _ _ H Ha).
  - intros c Hin.
    pose proof (forallb_elem _ _ _ later_calls_on_grid Hin) as H.
    cbv beta in H; apply andb_true_iff in H as [H1 H2].
    split; [|exact H2].
    apply Forall_forall; intros a Ha; apply (forallb_elem _ _ _ H1 Ha).
  - exists (exact_fill 0); split.
    + apply (lookup_gradient 0); lia.
    + vm_compute; reflexivity.
Qed.

Lemma drawing_coordinates_and_pixel_grid_at_step_49 :
  exists img offset fill,
    create_carbon_tracker_icon Gradient.sample_covers = Some img
    /\ history img !! 49%nat
       = Some (RoundedRectangle
                 (Int offset, Int offset,
                  Int (512 - offset), Int (512 - offset))
                 (Int 102) fill)
    /\ offset = 2 * Z.of_nat 49
    /\ 0 <= offset < 512 - offset
    /\ offset <= 98.
Proof.
  destruct (drawing_coordinates_and_pixel_grid Gradient.sample_covers)
    as (img & Hc & Hrect & _).
  destruct (Hrect 49%nat) as (offset & fill & H); [lia|].
  exists img, offset, fill; split; [exact Hc | exact H].
Defined.

End Leaf.

(** ** The corners of the canvas *)

Module Canvas.
Import Py PIL Icon Trace.

Definition untouched (x y : Z) : bool :=
  forallb (fun c => negb (envelope c x y)) icon_calls.

Lemma corners_untouched :
  untouched 0 0 = true /\ untouched 0 511 = true
  /\ untouched 511 0 = true /\ untouched 511 511 = true.
Proof. repeat split; vm_compute; reflexivity. Qed.

Lemma envelope_sound : sound_rasteriser envelope.
Proof. intros c x y H; exact H. Qed.

Section Sound.
Variable covers : DrawCall -> Z -> Z -> bool.
Hypothesis covers_sound : sound_rasteriser covers.

Lemma untouched_not_covered (x y : Z) :
  untouched x y = true ->
  Forall (fun c => covers c x y = false) icon_calls.
Proof.
  intros H; apply Forall_forall; intros c Hc.
  pose proof (Leaf.forallb_elem _ _ _ H Hc) as Hn.
  destruct (covers c x y) eqn:E; [|reflexivity].
  apply covers_sound in E; cbv beta in Hn; rewrite E in Hn; discriminate.
Qed.

Lemma untouched_pixel (x y : Z) :
  0 <= x < 512 -> 0 <= y < 512 -> untouched x y = true ->
  getpixel (draw_all covers icon_calls blank) x y = Some (RGBA 0 0 0 0).
Proof.
  intros Hx Hy H.
  destruct (size_draw_all covers icon_calls blank) as [Hw Hh].
  rewrite getpixel_in_range
    by (rewrite ?Hw, ?Hh; change (width blank) with 512;
        change (height blank) with 512; lia).
  rewrite (pixels_draw_all covers icon_calls x y (untouched_not_covered x y H)).
  reflexivity.
Qed.

End Sound.

(** C8.  Whenever the rasteriser sets no pixel outside the outline of the
    shape it is given ([sound_rasteriser]), the four corner pixels (0, 0),
    (0, 511), (511, 0) and (511, 511) of the returned image still hold the
    initial (0, 0, 0, 0): alpha 0.  The arcs of the first rectangle pass
    the corners at a distance, the later rectangles and the leaf do not
    reach them. *)
Theorem corner_pixels_transparent (covers : DrawCall -> Z -> Z -> bool) :
  sound_rasteriser covers ->
  exists img,
    create_carbon_tracker_icon covers = Some img
    /\ forall x y : Z,
         (x = 0 \/ x = 511) -> (y = 0 \/ y = 511) ->
         exists p, getpixel img x y = Some p
                   /\ p = RGBA 0 0 0 0 /\ alpha p = 0.
Proof.
  intros Hs.
  exists (draw_all covers icon_calls blank); split; [apply create_trace|].
  intros x y Hx Hy; exists (RGBA 0 0 0 0).
  split; [|split; reflexivity].
  destruct corners_untouched as (H00 & H01 & H10 & H11).
  destruct Hx as [-> | ->], Hy as [-> | ->];
    apply (untouched_pixel covers Hs); (lia || assumption).
Qed.

Lemma corner_pixels_transparent_for_envelope :
  sound_rasteriser envelope
  /\ exists img,
       create_carbon_tracker_icon envelope = Some img
       /\ exists p, getpixel img 511 0 = Some p
                    /\ p = RGBA 0 0 0 0 /\ alpha p = 0.
Proof.
  split; [exact envelope_sound|].
  destruct (corner_pixels_transparent envelope envelope_sound) as [img [Hc H]].
  exists img; split; [exact Hc|].
  apply (H 511 0); [right | left]; reflexivity.
Defined.

End Canvas.

(** ** The module top level *)

Module Script.
Import Py PIL Icon Trace OS Main.

(** The effects of one successful run, in order. *)
Definition run_events (data : list Byte.byte) : list Event :=
  [FileWrite icon_path data; Stdout line1; Stdout line2].

Definition after_run (data : list Byte.byte) (w : World) : World :=
  {| files := <[icon_path := data]> (files w);
     writable := writable w;
     log := log w ++ run_events data |}.

(** Concrete instances: an encoder that emits no bytes, a world in which
    the icon can be written, and one in which it already exists. *)
Definition empty_encoder : Image -> list Byte.byte := fun _ => [].

Definition fresh_world : World :=
  {| files := ∅; writable := {[ icon_path ]}; log := [] |}.

Definition used_world : World :=
  {| files := {[ icon_path := [Byte.x00] ]};
     writable := {[ icon_path ]};
     log := [Stdout "earlier output"] |}.

Lemma printed_app (l k : list Event) : printed (l ++ k) = printed l ++ printed k.
Proof. unfold printed; apply flat_map_app. Qed.

Lemma written_app (l k : list Event) : written (l ++ k) = written l ++ written k.
Proof. unfold written; apply flat_map_app. Qed.

Section Run.
Variable covers : DrawCall -> Z -> Z -> bool.
Variable encode_png : Image -> list Byte.byte.

Let icon : Image := draw_all covers icon_calls blank.

(** The run succeeds exactly when the output path can be written, and
    then leaves [after_run]. *)
Lemma main_run (w : World) :
  main covers encode_png w
  = if decide (icon_path ∈ writable w)
    then Some (after_run (encode_png icon) w)
    else None.
Proof.
  unfold main; rewrite create_trace; cbn [mbind option_bind].
  unfold save, write_file.
  destruct (decide (icon_path ∈ writable w)); cbn [mbind option_bind].
  - unfold print, after_run, run_events; cbn [files writable log].
    rewrite <- !app_assoc; reflexivity.
  - reflexivity.
Qed.

Lemma main_writable (w : World) :
  icon_path ∈ writable w ->
  main covers encode_png w = Some (after_run (encode_png icon) w).
Proof.
  intros H; rewrite main_run.
  destruct (decide (icon_path ∈ writable w)); [reflexivity | contradiction].
Qed.

Lemma main_inv (w w' : World) :
  main covers encode_png w = Some w' ->
  icon_path ∈ writable w /\ w' = after_run (encode_png icon) w.
Proof.
  rewrite main_run.
  destruct (decide (icon_path ∈ writable w)); [|discriminate].
  intros [= <-]; split; [assumption | reflexivity].
Qed.

End Run.

Lemma pixels_draw_all_ext (covers1 covers2 : DrawCall -> Z -> Z -> bool) :
  (forall c x y, covers1 c x y = covers2 c x y) ->
  forall (cs : list DrawCall) (img1 img2 : Image) (x y : Z),
    pixels img1 x y = pixels img2 x y ->
    pixels (draw_all covers1 cs img1) x y
    = pixels (draw_all covers2 cs img2) x y.
Proof.
  intros Hext cs; induction cs as [|c cs IH]; intros img1 img2 x y Hp.
  - exact Hp.
  - rewrite !draw_all_cons; apply IH; simpl.
    rewrite Hext, Hp; reflexivity.
Qed.

Lemma fresh_world_writable : icon_path ∈ writable fresh_world.
Proof. unfold fresh_world; cbn [writable]; set_solver. Qed.

Lemma used_world_writable : icon_path ∈ writable used_world.
Proof. unfold used_world; cbn [writable]; set_solver. Qed.

(** C3.  The image construction takes no input.  Its sequence of drawing
    calls is the same on every run, and under the same rasterisation the
    pixels are the same.  Two successful runs of the script, from any two
    states of the file system and the console, write the same bytes to the
    same path and emit the same effects; running it again on the state a
    run left changes no file. *)
Theorem render_deterministic
        (covers covers' : DrawCall -> Z -> Z -> bool)
        (encode_png : Image -> list Byte.byte) :
  (forall c x y, covers c x y = covers' c x y) ->
  exists img img',
    create_carbon_tracker_icon covers = Some img
    /\ create_carbon_tracker_icon covers' = Some img'
    /\ history img = history img'
    /\ (forall x y, getpixel img x y = getpixel img' x y)
    /\ forall w1 w2 w1' w2',
         main covers encode_png w1 = Some w1' ->
         main covers encode_png w2 = Some w2' ->
         files w1' !! icon_path = files w2' !! icon_path
         /\ (exists evs, log w1' = log w1 ++ evs /\ log w2' = log w2 ++ evs)
         /\ exists w1'', main covers encode_png w1' = Some w1''
                         /\ files w1'' = files w1'.
Proof.
  intros Hext.
  exists (draw_all covers icon_calls blank), (draw_all covers' icon_calls blank).
  split; [apply create_trace|]; split; [apply create_trace|].
  split; [rewrite !history_draw_all; reflexivity|].
  split.
  - intros x y; unfold getpixel.
    destruct (size_draw_all covers icon_calls blank) as [-> ->].
    destruct (size_draw_all covers' icon_calls blank) as [-> ->].
    cbv zeta.
    rewrite (pixels_draw_all_ext covers covers' Hext icon_calls blank blank
               _ _ eq_refl).
    reflexivity.
  - intros w1 w2 w1' w2' H1 H2.
    apply main_inv in H1 as [Hw1 ->]; apply main_inv in H2 as [Hw2 ->].
    split; [|split].
    + unfold after_run; cbn [files].
      rewrite !lookup_insert_eq; reflexivity.
    + eexists; split; reflexivity.
    + eexists; split.
      * apply main_writable; exact Hw1.
      * unfold after_run; cbn [files]. apply insert_insert_eq.
Qed.

Lemma render_deterministic_on_two_worlds :
  exists img w1' w2',
    create_carbon_tracker_icon envelope = Some img
    /\ main envelope empty_encoder fresh_world = Some w1'
    /\ main envelope empty_encoder used_world = Some w2'
    /\ files w1' !! icon_path = files w2' !! icon_path
    /\ (exists evs, log w1' = log fresh_world ++ evs
                    /\ log w2' = log used_world ++ evs)
    /\ exists w1'', main envelope empty_encoder w1' = Some w1''
                    /\ files w1'' = files w1'.
Proof.
  destruct (render_deterministic envelope envelope empty_encoder
              (fun c x y => eq_refl)) as (img & img' & Hc & _ & _ & _ & H).
  pose proof (main_writable envelope empty_encoder fresh_world
                fresh_world_writable) as H1.
  pose proof (main_writable envelope empty_encoder used_world
                used_world_writable) as H2.
  eexists img, _, _.
  split; [exact Hc|]; split; [exact H1|]; split; [exact H2|].
  exact (H _ _ _ _ H1 H2).
Defined.

(** C4, as the description states it, fails: a successful run from
    [fresh_world] leaves two lines on the console, not one. *)
Lemma main_prints_two_lines :
  exists w',
    main envelope empty_encoder fresh_world = Some w'
    /\ printed (log w') = [line1; line2]
    /\ length (printed (log w')) <> 1%nat.
Proof.
  eexists; split.
  - apply main_writable, fresh_world_writable.
  - split; [reflexivity | discriminate].
Qed.

(** C4, as the code has it.  The run succeeds whenever the output path
    can be written, and a successful run performs exactly three effects in
    this order: one file write, of the encoded icon to
    [assets/icons/app_icon.png], then two printed lines.  No other file
    changes and nothing else is printed. *)
Theorem main_writes_once_prints_twice
        (covers : DrawCall -> Z -> Z -> bool)
        (encode_png : Image -> list Byte.byte) :
  exists img,
    create_carbon_tracker_icon covers = Some img
    /\ (forall w, icon_path ∈ writable w ->
        is_Some (main covers encode_png w))
    /\ forall w w',
         main covers encode_png w = Some w' ->
         log w' = log w ++ [FileWrite icon_path (encode_png img);
                            Stdout line1; Stdout line2]
         /\ length (written (log w')) = S (length (written (log w)))
         /\ length (printed (log w')) = S (S (length (printed (log w))))
         /\ files w' = <[icon_path := encode_png img]> (files w)
         /\ (forall p, p <> icon_path -> files w' !! p = files w !! p).
Proof.
  exists (draw_all covers icon_calls blank).
  split; [apply create_trace|]; split.
  - intros w Hw; rewrite (main_writable covers encode_png w Hw); eexists; reflexivity.
  - intros w w' H; apply main_inv in H as [_ ->].
    unfold after_run, run_events; cbn [files log].
    split; [reflexivity|].
    rewrite written_app, printed_app, !length_app; cbn.
    split; [lia|]; split; [lia|]; split; [reflexivity|].
    intros p Hp; apply lookup_insert_ne; congruence.
Qed.

Lemma main_writes_once_prints_twice_on_used_world :
  exists img w',
    create_carbon_tracker_icon envelope = Some img
    /\ is_Some (main envelope empty_encoder used_world)
    /\ main envelope empty_encoder used_world = Some w'
    /\ log w' = log used_world ++ [FileWrite icon_path (empty_encoder img);
                                   Stdout line1; Stdout line2]
    /\ length (written (log w')) = S (length (written (log used_world)))
    /\ length (printed (log w')) = S (S (length (printed (log used_world))))
    /\ files w' = <[icon_path := empty_encoder img]> (files used_world)
    /\ (forall p, p <> icon_path -> files w' !! p = files used_world !! p).
Proof.
  destruct (main_writes_once_prints_twice envelope empty_encoder)
    as (img & Hc & Hok & H).
  pose proof (main_writable envelope empty_encoder used_world
                used_world_writable) as Hm.
  eexists img, _.
  split; [exact Hc|]; split; [exact (Hok _ used_world_writable)|].
  split; [exact Hm|].
  exact (H _ _ Hm).
Defined.

End Script.

(** ** The layers of the image *)

Module Layers.
Import Py PIL Icon Trace.

Section Painter.
Variable covers : DrawCall -> Z -> Z -> bool.

(** The last call that covers a pixel decides it. *)
Lemma pixels_last_call (cs : list DrawCall) (i : nat) (c : DrawCall) (x y : Z) :
  cs !! i = Some c ->
  covers c x y = true ->
  (forall j d, (i < j)%nat -> cs !! j = Some d -> covers d x y = false) ->
  forall img, pixels (draw_all covers cs img) x y = ink c.
Proof.
  intros Hi Hc Hlater img.
  rewrite <- (take_drop_middle cs i c Hi).
  rewrite draw_all_app, draw_all_cons, pixels_draw_all.
  - simpl; rewrite Hc; reflexivity.
  - apply Forall_lookup; intros k d Hk.
    rewrite lookup_drop in Hk.
    apply (Hlater (S i + k)%nat d); [lia | exact Hk].
Qed.

(** A pixel holds its initial value or the ink of a call that covers it. *)
Lemma pixels_initial_or_ink (cs : list DrawCall) (x y : Z) :
  forall img,
    pixels (draw_all covers cs img) x y = pixels img x y
    \/ exists c, c ∈ cs /\ covers c x y = true
                 /\ pixels (draw_all covers cs img) x y = ink c.
Proof.
  induction cs as [|c cs IH]; intros img.
  - left; reflexivity.
  - rewrite draw_all_cons.
    destruct (IH (draw_call covers c img)) as [H | [d [Hd [Hcov H]]]].
    + rewrite H; simpl.
      destruct (covers c x y) eqn:E.
      * right; exists c; split; [apply list_elem_of_here|].
        split; [exact E | reflexivity].
      * left; reflexivity.
    + right; exists d; split; [apply list_elem_of_further, Hd|].
      split; [exact Hcov | exact H].
Qed.

Lemma getpixel_icon (x y : Z) :
  0 <= x < 512 -> 0 <= y < 512 ->
  getpixel (draw_all covers icon_calls blank) x y
  = Some (pixels (draw_all covers icon_calls blank) x y).
Proof.
  intros Hx Hy.
  destruct (size_draw_all covers icon_calls blank) as [Hw Hh].
  apply getpixel_in_range; rewrite ?Hw, ?Hh;
    change (width blank) with 512; change (height blank) with 512; lia.
Qed.

(** A read that succeeds returns the pixel at the column and row the
    indices name. *)
Lemma getpixel_icon_inv (x y : Z) (p : Color) :
  getpixel (draw_all covers icon_calls blank) x y = Some p ->
  (0 <= index 512 x < 512 /\ 0 <= index 512 y < 512)
  /\ p = pixels (draw_all covers icon_calls blank)
               (index 512 x) (index 512 y).
Proof.
  intros H; apply getpixel_inv in H.
  destruct (size_draw_all covers icon_calls blank) as [Hw Hh].
  rewrite Hw, Hh in H.
  change (width blank) with 512 in H; change (height blank) with 512 in H.
  destruct H as (Hx & Hy & Hp); split; [split; assumption | exact Hp].
Qed.

End Painter.

Definition vein : DrawCall := Line (vein_points 256 256 179) (white 200) 6.

(** The colours a pixel of the icon can hold. *)
Definition in_palette (p : Color) : bool :=
  color_eqb p (RGBA 0 0 0 0)
  || ((alpha p =? 255)
      && (46 <=? red p) && (red p <=? 102)
      && (125 <=? green p) && (green p <=? 187)
      && (50 <=? blue p) && (blue p <=? 106))
  || ((red p =? 255) && (green p =? 255) && (blue p =? 255)
      && ((alpha p =? 255) || (alpha p =? 200) || (alpha p =? 180))).

Lemma icon_inks_in_palette :
  forallb (fun c => in_palette (ink c)) icon_calls = true.
Proof. vm_compute; reflexivity. Qed.

Lemma lookup_vein : icon_calls !! 51%nat = Some vein.
Proof. apply (lookup_leaf 1). Qed.

Lemma after_vein (j : nat) (d : DrawCall) :
  (51 < j)%nat -> icon_calls !! j = Some d ->
  exists p, p ∈ detail_points 256 256 179 /\ d = detail_call p.
Proof.
  intros Hj Hd.
  replace j with (50 + (2 + (j - 52)))%nat in Hd by lia.
  rewrite lookup_leaf in Hd; unfold leaf_calls in Hd.
  cbn [lookup list_lookup Nat.add] in Hd.
  apply list_elem_of_lookup_2, list_elem_of_fmap in Hd as [p [-> Hp]].
  exists p; split; [exact Hp | reflexivity].
Qed.

Lemma dots_miss_centre :
  forallb (fun p => negb (envelope (detail_call p) 256 256))
          (detail_points 256 256 179) = true.
Proof. vm_compute; reflexivity. Qed.

(** X2.  The vein is not blended into the leaf.  Any pixel the vein line
    covers and none of the three dots covers ends as (255, 255, 255, 200):
    the line's alpha 200 replaces the opaque white of the polygon under
    it. *)
Theorem vein_pixels_have_alpha_200 (covers : DrawCall -> Z -> Z -> bool) :
  exists img,
    create_carbon_tracker_icon covers = Some img
    /\ forall x y : Z,
         0 <= x < 512 -> 0 <= y < 512 ->
         covers (Line (vein_points 256 256 179) (white 200) 6) x y = true ->
         (forall p, p ∈ detail_points 256 256 179 ->
                    covers (Ellipse (detail_box p) (white 180)) x y = false) ->
         getpixel img x y = Some (RGBA 255 255 255 200).
Proof.
  exists (draw_all covers icon_calls blank); split; [apply create_trace|].
  intros x y Hx Hy Hv Hdots.
  rewrite (getpixel_icon covers x y Hx Hy); f_equal.
  apply (pixels_last_call covers icon_calls 51 vein x y lookup_vein Hv).
  intros j d Hj Hd.
  destruct (after_vein j d Hj Hd) as [p [Hp ->]].
  apply (Hdots p Hp).
Qed.

Lemma vein_pixels_have_alpha_200_at_centre :
  exists img,
    create_carbon_tracker_icon envelope = Some img
    /\ getpixel img 256 256 = Some (RGBA 255 255 255 200).
Proof.
  destruct (vein_pixels_have_alpha_200 envelope) as [img [Hc H]].
  exists img; split; [exact Hc|].
  apply (H 256 256); [lia | lia | vm_compute; reflexivity |].
  intros p Hp.
  pose proof (Leaf.forallb_elem _ _ _ dots_miss_centre Hp) as Hn.
  cbv beta in Hn; apply negb_true_iff in Hn; exact Hn.
Defined.

(** X3.  The palette of the icon.  Whatever the rasteriser, every pixel of
    the returned image is the initial (0, 0, 0, 0), or an opaque green
    with R in [46, 102], G in [125, 187] and B in [50, 106], or white with
    alpha 255, 200 or 180. *)
Theorem icon_palette (covers : DrawCall -> Z -> Z -> bool) :
  exists img,
    create_carbon_tracker_icon covers = Some img
    /\ forall (x y : Z) (p : Color),
         getpixel img x y = Some p ->
         p = RGBA 0 0 0 0
         \/ (alpha p = 255 /\ 46 <= red p <= 102
             /\ 125 <= green p <= 187 /\ 50 <= blue p <= 106)
         \/ (red p = 255 /\ green p = 255 /\ blue p = 255
             /\ (alpha p = 255 \/ alpha p = 200 \/ alpha p = 180)).
Proof.
  exists (draw_all covers icon_calls blank); split; [apply create_trace|].
  intros x y p Hp.
  apply getpixel_icon_inv in Hp as [_ ->].
  destruct (pixels_initial_or_ink covers icon_calls
              (index 512 x) (index 512 y) blank)
    as [-> | [c [Hc [_ ->]]]]; [left; reflexivity|].
  pose proof (Leaf.forallb_elem _ _ _ icon_inks_in_palette Hc) as H.
  cbv beta in H; unfold in_palette in H.
  apply orb_true_iff in H as [H | H]; [apply orb_true_iff in H as [H | H]|].
  - left; apply color_eqb_eq, H.
  - right; left.
    repeat (apply andb_true_iff in H as [H ?]).
    repeat split; lia.
  - right; right.
    apply andb_true_iff in H as [H Ha].
    repeat (apply andb_true_iff in H as [H ?]).
    repeat split; lia.
Qed.

Lemma icon_palette_at_corner :
  exists img p,
    create_carbon_tracker_icon envelope = Some img
    /\ getpixel img 0 0 = Some p
    /\ (p = RGBA 0 0 0 0
        \/ (alpha p = 255 /\ 46 <= red p <= 102
            /\ 125 <= green p <= 187 /\ 50 <= blue p <= 106)
        \/ (red p = 255 /\ green p = 255 /\ blue p = 255
            /\ (alpha p = 255 \/ alpha p = 200 \/ alpha p = 180))).
Proof.
  destruct (icon_palette envelope) as [img [Hc H]].
  assert (Hp : getpixel img 0 0 = Some (RGBA 0 0 0 0)).
  { rewrite create_trace in Hc; injection Hc as <-.
    apply (Canvas.untouched_pixel envelope Canvas.envelope_sound);
      [lia | lia | apply Canvas.corners_untouched]. }
  exists img, (RGBA 0 0 0 0); split; [exact Hc|]; split; [exact Hp|].
  apply (H 0 0 _ Hp).
Defined.

End Layers.

(** ** The extent of the icon *)

Module Extent.
Import Py PIL Icon Trace.

(** A pixel in one of the four corner squares of the canvas, more than 103
    (the radius 102 and one pixel of slack) from the centre of the arc of
    the outermost rectangle. *)
Definition beyond_outer_arc (x y : Z) : Prop :=
  exists cx cy,
    (cx = 102 /\ x < 102 \/ cx = 410 /\ 410 < x)
    /\ (cy = 102 /\ y < 102 \/ cy = 410 /\ 410 < y)
    /\ 103 * 103 < (x - cx) * (x - cx) + (y - cy) * (y - cy).

(** The leaf shapes keep within the columns 102..410. *)
Definition central (c : DrawCall) : bool :=
  match bbox c with
  | Some ((xmin, xmax), _) => (102 <=? xmin) && (xmax <=? 410)
  | None => false
  end.

Lemma leaf_calls_central : forallb central leaf_calls = true.
Proof. vm_compute; reflexivity. Qed.

Ltac split_tests :=
  repeat match goal with
         | |- context [?a <=? ?b] => destruct (Z.leb_spec a b); try lia
         | |- context [?a <? ?b] => destruct (Z.ltb_spec a b); try lia
         end.

Lemma rect_misses_beyond_arc (i x y : Z) :
  0 <= i < 50 -> beyond_outer_arc x y ->
  envelope (gradient_rect i) x y = false.
Proof.
  intros Hi (cx & cy & Hx & Hy & Hd).
  unfold envelope, gradient_rect, outside_corner, arc_centre.
  cbn [bbox bounds mapM floor ceil mbind option_bind mret option_ret
       fmap option_fmap option_map fold_right].
  destruct Hx as [[-> Hx] | [-> Hx]], Hy as [[-> Hy] | [-> Hy]];
    split_tests; cbn [andb negb]; try reflexivity; exfalso; nia.
Qed.

Lemma leaf_misses_beyond_arc (c : DrawCall) (x y : Z) :
  c ∈ leaf_calls -> beyond_outer_arc x y -> envelope c x y = false.
Proof.
  intros Hc (cx & cy & Hx & _).
  pose proof (Leaf.forallb_elem _ _ _ leaf_calls_central Hc) as H.
  unfold central in H; unfold envelope.
  destruct (bbox c) as [[[xmin xmax] [ymin ymax]]|]; [|discriminate].
  apply andb_true_iff in H as [H1 H2].
  apply Z.leb_le in H1; apply Z.leb_le in H2.
  destruct (Z.leb_spec xmin x); [|reflexivity].
  destruct (Z.leb_spec x xmax); [|reflexivity].
  exfalso; lia.
Qed.

Lemma beyond_arc_untouched (x y : Z) :
  beyond_outer_arc x y -> Canvas.untouched x y = true.
Proof.
  intros H; unfold Canvas.untouched, icon_calls.
  apply forallb_forall; intros c Hc.
  apply negb_true_iff.
  apply list_elem_of_In, elem_of_app in Hc as [Hc | Hc].
  - apply list_elem_of_fmap in Hc as [i [-> Hi]].
    apply rect_misses_beyond_arc; [|exact H].
    apply list_elem_of_In in Hi.
    pose proof (proj1 (Forall_forall _ _) range_bounded i) as Hr.
    apply Hr, list_elem_of_In, Hi.
  - apply leaf_misses_beyond_arc; assumption.
Qed.

(** X5.  The icon keeps to its rounded square.  When the rasteriser sets
    no pixel outside the outline of the shape it is given, every pixel
    that lies in a corner square of the canvas more than 103 from the
    centre of the outermost rectangle's arc is still (0, 0, 0, 0) in the
    returned image: no later rectangle and no part of the leaf reaches
    past the first rectangle's rounded corners. *)
Theorem icon_confined_to_rounded_square
        (covers : DrawCall -> Z -> Z -> bool) :
  sound_rasteriser covers ->
  exists img,
    create_carbon_tracker_icon covers = Some img
    /\ forall x y : Z,
         0 <= x < 512 -> 0 <= y < 512 ->
         beyond_outer_arc x y ->
         getpixel img x y = Some (RGBA 0 0 0 0).
Proof.
  intros Hs.
  exists (draw_all covers icon_calls blank); split; [apply create_trace|].
  intros x y Hx Hy Hb.
  apply (Canvas.untouched_pixel covers Hs x y Hx Hy).
  apply beyond_arc_untouched, Hb.
Qed.

Lemma icon_confined_to_rounded_square_at_20_20 :
  sound_rasteriser envelope
  /\ beyond_outer_arc 20 20
  /\ exists img,
       create_carbon_tracker_icon envelope = Some img
       /\ getpixel img 20 20 = Some (RGBA 0 0 0 0).
Proof.
  assert (Hb : beyond_outer_arc 20 20).
  { exists 102, 102; split; [left; lia|]; split; [left; lia|]; lia. }
  split; [exact Canvas.envelope_sound|]; split; [exact Hb|].
  destruct (icon_confined_to_rounded_square envelope Canvas.envelope_sound)
    as [img [Hc H]].
  exists img; split; [exact Hc|].
  apply (H 20 20); [lia | lia | exact Hb].
Defined.

(** The box around the five calls of the leaf. *)
Definition in_leaf_box (c : DrawCall) : bool :=
  match bbox c with
  | Some ((xmin, xmax), (ymin, ymax)) =>
      (112 <=? xmin) && (xmax <=? 400) && (77 <=? ymin) && (ymax <=? 364)
  | None => false
  end.

Definition opaque_green (p : Color) : bool :=
  (alpha p =? 255)
  && (46 <=? red p) && (red p <=? 102)
  && (125 <=? green p) && (green p <=? 187)
  && (50 <=? blue p) && (blue p <=? 106).

Lemma leaf_calls_boxed : forallb in_leaf_box leaf_calls = true.
Proof. vm_compute; reflexivity. Qed.

Lemma gradient_inks_green :
  forallb (fun c => opaque_green (ink c)) (gradient_rect <$> range 50) = true.
Proof. vm_compute; reflexivity. Qed.

Lemma leaf_misses_outside_box (c : DrawCall) (x y : Z) :
  c ∈ leaf_calls ->
  x < 112 \/ 400 < x \/ y < 77 \/ 364 < y ->
  envelope c x y = false.
Proof.
  intros Hc Hout.
  pose proof (Leaf.forallb_elem _ _ _ leaf_calls_boxed Hc) as H.
  unfold in_leaf_box in H; unfold envelope.
  destruct (bbox c) as [[[xmin xmax] [ymin ymax]]|]; [|discriminate].
  repeat (apply andb_true_iff in H as [H ?]).
  destruct (Z.leb_spec xmin x); [|reflexivity].
  destruct (Z.leb_spec x xmax); [|reflexivity].
  destruct (Z.leb_spec ymin y); [|reflexivity].
  destruct (Z.leb_spec y ymax); [|reflexivity].
  exfalso; lia.
Qed.

(** X9.  The leaf keeps to the middle of the icon.  When the rasteriser
    sets no pixel outside the outline of the shape it is given, a pixel
    left of column 112, right of column 400, above row 77 or below row
    364 is never white: it is the initial (0, 0, 0, 0) or one of the
    opaque greens of the gradient.  The column and row are those the
    coordinates name, a negative coordinate counting from the far edge. *)
Theorem leaf_confined_to_centre (covers : DrawCall -> Z -> Z -> bool) :
  sound_rasteriser covers ->
  exists img,
    create_carbon_tracker_icon covers = Some img
    /\ forall (x y : Z) (p : Color),
         getpixel img x y = Some p ->
         index 512 x < 112 \/ 400 < index 512 x
         \/ index 512 y < 77 \/ 364 < index 512 y ->
         p = RGBA 0 0 0 0
         \/ (alpha p = 255 /\ 46 <= red p <= 102
             /\ 125 <= green p <= 187 /\ 50 <= blue p <= 106).
Proof.
  intros Hs.
  exists (draw_all covers icon_calls blank); split; [apply create_trace|].
  intros x y p Hp Hout.
  apply Layers.getpixel_icon_inv in Hp as [_ ->].
  destruct (Layers.pixels_initial_or_ink covers icon_calls
              (index 512 x) (index 512 y) blank)
    as [-> | [c [Hc [Hcov ->]]]]; [left; reflexivity|right].
  unfold icon_calls in Hc; apply elem_of_app in Hc as [Hc | Hc].
  - pose proof (Leaf.forallb_elem _ _ _ gradient_inks_green Hc) as H.
    cbv beta in H; unfold opaque_green in H.
    repeat (apply andb_true_iff in H as [H ?]).
    repeat split; lia.
  - exfalso.
    apply Hs in Hcov.
    rewrite (leaf_misses_outside_box c _ _ Hc Hout) in Hcov; discriminate.
Qed.

Lemma leaf_confined_to_centre_at_100_256 :
  sound_rasteriser envelope
  /\ exists img p,
       create_carbon_tracker_icon envelope = Some img
       /\ getpixel img 100 256 = Some p
       /\ (p = RGBA 0 0 0 0
           \/ (alpha p = 255 /\ 46 <= red p <= 102
               /\ 125 <= green p <= 187 /\ 50 <= blue p <= 106)).
Proof.
  split; [exact Canvas.envelope_sound|].
  destruct (leaf_confined_to_centre envelope Canvas.envelope_sound)
    as [img [Hc H]].
  assert (Hp : exists p, getpixel img 100 256 = Some p).
  { assert (img = draw_all envelope icon_calls blank) as ->
      by (rewrite create_trace in Hc; congruence).
    rewrite (Layers.getpixel_icon envelope 100 256) by lia.
    eexists; reflexivity. }
  destruct Hp as [p Hp].
  exists img, p; split; [exact Hc|]; split; [exact Hp|].
  apply (H 100 256 p Hp); left; vm_compute; reflexivity.
Defined.

End Extent.

(** ** When the script raises *)

Module Failure.
Import Py PIL Icon Trace OS Main.

(** How a run of the module top level ends: every statement returned, or
    one raised and the run stopped in the world reached until then. *)
Inductive Outcome : Type :=
| Returned (w : World)
| Raised (w : World).

Section Run.

Variable covers : DrawCall -> Z -> Z -> bool.
Variable encode_png : Image -> list Byte.byte.

(** Lines 76-79, statement by statement, keeping the world in which an
    exception leaves the run. *)
Definition run (w : World) : Outcome :=
  match create_carbon_tracker_icon covers with
  | None => Raised w
  | Some icon =>
      match save encode_png icon icon_path w with
      | None => Raised w
      | Some w =>
          let w := print line1 w in
          let w := print line2 w in
          Returned w
      end
  end.

End Run.

(** A world in which the icon cannot be written. *)
Definition locked_world : World :=
  {| files := ∅; writable := ∅; log := [Stdout "earlier output"] |}.

(** X6.  Drawing never raises, whatever the rasteriser: no division by
    zero, no [int] of a non-finite float.  The script as a whole raises
    exactly when the output path cannot be opened for writing.  It then
    stops at [save], in the world it started from: no file has changed
    and neither line has been printed.  When it returns it has done what
    [main] does. *)
Theorem script_fails_iff_unwritable
        (covers : DrawCall -> Z -> Z -> bool)
        (encode_png : Image -> list Byte.byte) (w : World) :
  is_Some (create_carbon_tracker_icon covers)
  /\ (main covers encode_png w = None <-> icon_path ∉ writable w)
  /\ (exists icon,
        create_carbon_tracker_icon covers = Some icon
        /\ (main covers encode_png w = None <->
            save encode_png icon icon_path w = None))
  /\ (forall w', main covers encode_png w = Some w' <->
                 run covers encode_png w = Returned w')
  /\ ((icon_path ∉ writable w) -> run covers encode_png w = Raised w)
  /\ (forall w', run covers encode_png w = Raised w' ->
                 (icon_path ∉ writable w)
                 /\ w' = w
                 /\ printed (log w') = printed (log w)
                 /\ written (log w') = written (log w)
                 /\ files w' = files w).
Proof.
  split; [rewrite create_trace; eexists; reflexivity|].
  split.
  { rewrite Script.main_run.
    destruct (decide (icon_path ∈ writable w)) as [Hin | Hout]; split.
    + discriminate.
    + intros H; contradiction.
    + intros _; exact Hout.
    + reflexivity. }
  split.
  { exists (draw_all covers icon_calls blank); split; [apply create_trace|].
    unfold main; rewrite create_trace; cbn [mbind option_bind].
    destruct (save encode_png (draw_all covers icon_calls blank) icon_path w)
      as [w'|]; cbn [mbind option_bind]; split; intros H.
    + discriminate H.
    + discriminate H.
    + reflexivity.
    + reflexivity. }
  assert (Hrun : run covers encode_png w
                 = match main covers encode_png w with
                   | Some w' => Returned w'
                   | None => Raised w
                   end).
  { unfold run, main; rewrite create_trace; cbn [mbind option_bind].
    destruct (save encode_png (draw_all covers icon_calls blank) icon_path w);
      reflexivity. }
  rewrite Hrun, Script.main_run.
  destruct (decide (icon_path ∈ writable w)) as [Hin | Hout].
  - split; [|split].
    + intros w'; split; intros H; congruence.
    + intros H; contradiction.
    + intros w' H; discriminate H.
  - split; [|split].
    + intros w'; split; intros H; discriminate H.
    + intros _; reflexivity.
    + intros w' [= <-]; repeat split; assumption || reflexivity.
Qed.

Lemma script_fails_iff_unwritable_on_locked_world :
  (icon_path ∉ writable locked_world)
  /\ run envelope Script.empty_encoder locked_world = Raised locked_world
  /\ printed (log locked_world) = ["earlier output"]
  /\ (icon_path ∈ writable Script.fresh_world
      /\ exists w', run envelope Script.empty_encoder Script.fresh_world
                    = Returned w'
                    /\ main envelope Script.empty_encoder Script.fresh_world
                       = Some w').
Proof.
  assert (Hl : icon_path ∉ writable locked_world)
    by (unfold locked_world; cbn [writable]; set_solver).
  split; [exact Hl|].
  destruct (script_fails_iff_unwritable envelope Script.empty_encoder
              locked_world) as (_ & _ & _ & _ & Hraise & _).
  split; [exact (Hraise Hl)|]; split; [reflexivity|].
  split; [exact Script.fresh_world_writable|].
  destruct (script_fails_iff_unwritable envelope Script.empty_encoder
              Script.fresh_world) as (_ & _ & _ & Hret & _).
  pose proof (Script.main_writable envelope Script.empty_encoder
                Script.fresh_world Script.fresh_world_writable) as Hm.
  eexists; split; [apply Hret, Hm | exact Hm].
Defined.

End Failure.

(** ** The interpolation on other colours *)

Module Blend.
Import Py PIL Icon Trace.

Definition eight_bit : list Z := range 256.

(** [0 / 49] and [49 / 49] as binary64: 0.0 and 1.0. *)
Definition ratio_first : num := Float (S754_zero false).
Definition ratio_last : num := Float (S754_finite false 4503599627370496 (-52)).

Definition zero : num := Float (S754_zero false).

Definition is_zero_float (a : num) : bool :=
  match a with
  | Float (S754_zero false) => true
  | _ => false
  end.

Definition int_is (a : num) (c : Z) : bool :=
  match Py.int a with
  | Some v => v =? c
  | None => false
  end.

Lemma is_zero_float_eq (a : num) : is_zero_float a = true -> a = zero.
Proof.
  destruct a as [z|[[|]| | |]]; simpl; intros H; try discriminate; reflexivity.
Qed.

Lemma int_is_eq (a : num) (c : Z) : int_is a c = true -> Py.int a = Some c.
Proof.
  unfold int_is; destruct (Py.int a) as [v|]; [|discriminate].
  intros H; apply Z.eqb_eq in H; congruence.
Qed.

Lemma ratio_ends :
  ratio 0 = Some ratio_first /\ ratio (steps - 1) = Some ratio_last.
Proof. split; vm_compute; reflexivity. Qed.

(** At ratio 0.0 the end colour contributes +0.0 and the start colour
    comes through unchanged; at ratio 1.0 it is the other way round. *)
Lemma end_weight_first :
  forallb (fun c => is_zero_float (mul (Int c) ratio_first)) eight_bit = true.
Proof. vm_compute; reflexivity. Qed.

Lemma start_through_first :
  forallb (fun c => int_is (add (mul (Int c) (sub (Int 1) ratio_first)) zero) c)
          eight_bit = true.
Proof. vm_compute; reflexivity. Qed.

Lemma start_weight_last :
  forallb (fun c => is_zero_float (mul (Int c) (sub (Int 1) ratio_last)))
          eight_bit = true.
Proof. vm_compute; reflexivity. Qed.

Lemma end_through_last :
  forallb (fun c => int_is (add zero (mul (Int c) ratio_last)) c)
          eight_bit = true.
Proof. vm_compute; reflexivity. Qed.

Definition flat_ok (t : num) (c : Z) : bool :=
  match channel c c t with
  | Some v => (c - 1 <=? v) && (v <=? c) && (0 <=? v)
  | None => false
  end.

Definition flat_step_ok (i : Z) : bool :=
  match ratio i with
  | Some t => forallb (flat_ok t) eight_bit
  | None => false
  end.

Lemma flat_ok_all : forallb flat_step_ok (range 50) = true.
Proof. vm_cast_no_check (eq_refl true). Qed.

Lemma eight_bit_in (c : Z) : 0 <= c <= 255 -> In c eight_bit.
Proof. intros H; apply in_range; lia. Qed.

(** X7.  The interpolation is exact at both ends for any two 8-bit
    channel values: at step 0 the channel is the start value and at step
    [steps - 1] the end value, with no loss to rounding or truncation. *)
Theorem channel_endpoints_exact (c1 c2 : Z) :
  0 <= c1 <= 255 -> 0 <= c2 <= 255 ->
  exists t0 t1,
    ratio 0 = Some t0 /\ ratio (steps - 1) = Some t1
    /\ channel c1 c2 t0 = Some c1
    /\ channel c1 c2 t1 = Some c2.
Proof.
  intros H1 H2.
  exists ratio_first, ratio_last.
  split; [apply ratio_ends|]; split; [apply ratio_ends|].
  unfold channel, blend; split.
  - pose proof (proj1 (forallb_forall _ _) end_weight_first c2
                  (eight_bit_in c2 H2)) as Hz.
    apply is_zero_float_eq in Hz; rewrite Hz.
    apply int_is_eq.
    apply (proj1 (forallb_forall _ _) start_through_first c1
             (eight_bit_in c1 H1)).
  - pose proof (proj1 (forallb_forall _ _) start_weight_last c1
                  (eight_bit_in c1 H1)) as Hz.
    apply is_zero_float_eq in Hz; rewrite Hz.
    apply int_is_eq.
    apply (proj1 (forallb_forall _ _) end_through_last c2
             (eight_bit_in c2 H2)).
Qed.

Lemma channel_endpoints_exact_black_to_white :
  exists t0 t1,
    ratio 0 = Some t0 /\ ratio (steps - 1) = Some t1
    /\ channel 0 255 t0 = Some 0
    /\ channel 0 255 t1 = Some 255.
Proof. apply (channel_endpoints_exact 0 255); lia. Defined.

(** X8.  A channel with the same 8-bit value [c] at both ends does not
    always stay at [c]: every step gives [c] or [c - 1], never less than
    0, and [c - 1] does occur (for c = 3 at step 1 the blend is just
    below 3 and [int] yields 2). *)
Theorem flat_channel_may_drop_by_one :
  (forall c i : Z,
     0 <= c <= 255 -> 0 <= i < 50 ->
     exists t v,
       ratio i = Some t /\ channel c c t = Some v
       /\ c - 1 <= v <= c /\ 0 <= v)
  /\ exists t, ratio 1 = Some t /\ channel 3 3 t = Some 2.
Proof.
  split.
  - intros c i Hc Hi.
    pose proof (proj1 (forallb_forall _ _) flat_ok_all i (in_range 50 i Hi)) as H.
    unfold flat_step_ok in H.
    destruct (ratio i) as [t|] eqn:Ht; [|discriminate].
    pose proof (proj1 (forallb_forall _ _) H c (eight_bit_in c Hc)) as E.
    unfold flat_ok in E.
    destruct (channel c c t) as [v|] eqn:Hv; [|discriminate].
    exists t, v; split; [reflexivity|]; split; [exact Hv|]; lia.
  - eexists; split; [reflexivity | vm_compute; reflexivity].
Qed.

Lemma flat_channel_may_drop_by_one_at_3 :
  exists t v,
    ratio 1 = Some t /\ channel 3 3 t = Some v
    /\ 3 - 1 <= v <= 3 /\ 0 <= v.
Proof.
  destruct flat_channel_may_drop_by_one as [H _].
  apply (H 3 1); lia.
Defined.

End Blend.
